(** * The Meshtastic-to-Mattermost bridge client (meshtastic-client.py)

    A shallow embedding of the packet handler, the identity lookup, the two
    client constructors and [main], followed by the properties of the bridge
    stated in the design document. *)

From Stdlib Require Import String Ascii NArith.
From stdpp Require Import gmap list.

Local Open Scope N_scope.

(** ** Python values the client handles *)

(** A Python [str] is a sequence of Unicode code points. *)
Abbreviation pystr := (list N).

(** ASCII source literals as [str] values. *)
Definition pystr_of (s : string) : pystr :=
  map N_of_ascii (list_ascii_of_string s).

(** A Python [bytes] object. *)
Abbreviation pybytes := (list Byte.byte).

Definition bytes_of (s : string) : pybytes := list_byte_of_string s.

(** *** [bytes.decode("utf-8")]

    The strict decoder: shortest form only, no surrogates, nothing above
    U+10FFFF.  [None] stands for the [UnicodeDecodeError] the codec raises. *)

Definition is_cont (b : N) : bool := (0x80 <=? b) && (b <=? 0xBF).

Definition in_range (lo hi b : N) : bool := (lo <=? b) && (b <=? hi).

Definition cont_bits (b : N) : N := N.land b 0x3F.

Fixpoint utf8_decode_N (bs : list N) : option pystr :=
  match bs with
  | [] => Some []
  | b0 :: r0 =>
    if b0 <? 0x80 then cons b0 <$> utf8_decode_N r0
    else if in_range 0xC2 0xDF b0 then
      match r0 with
      | b1 :: r1 =>
        if is_cont b1
        then cons (N.shiftl (N.land b0 0x1F) 6 + cont_bits b1) <$> utf8_decode_N r1
        else None
      | _ => None
      end
    else if in_range 0xE0 0xEF b0 then
      match r0 with
      | b1 :: (b2 :: r2) =>
        let lo := if b0 =? 0xE0 then 0xA0 else 0x80 in
        let hi := if b0 =? 0xED then 0x9F else 0xBF in
        if in_range lo hi b1 && is_cont b2
        then cons (N.shiftl (N.land b0 0x0F) 12 + N.shiftl (cont_bits b1) 6
                   + cont_bits b2) <$> utf8_decode_N r2
        else None
      | _ => None
      end
    else if in_range 0xF0 0xF4 b0 then
      match r0 with
      | b1 :: (b2 :: (b3 :: r3)) =>
        let lo := if b0 =? 0xF0 then 0x90 else 0x80 in
        let hi := if b0 =? 0xF4 then 0x8F else 0xBF in
        if in_range lo hi b1 && is_cont b2 && is_cont b3
        then cons (N.shiftl (N.land b0 0x07) 18 + N.shiftl (cont_bits b1) 12
                   + N.shiftl (cont_bits b2) 6 + cont_bits b3)
               <$> utf8_decode_N r3
        else None
      | _ => None
      end
    else None
  end.

Definition utf8_decode (bs : pybytes) : option pystr :=
  utf8_decode_N (map Byte.to_N bs).

(** *** [str.split()] with no separator

    Runs of whitespace separate the tokens; leading and trailing whitespace
    yields no empty token.  [isspace] is the set [str.isspace] accepts. *)

Definition isspace (c : N) : bool :=
  in_range 0x09 0x0D c || in_range 0x1C 0x20 c || (c =? 0x85) || (c =? 0xA0)
  || (c =? 0x1680) || in_range 0x2000 0x200A c || (c =? 0x2028)
  || (c =? 0x2029) || (c =? 0x202F) || (c =? 0x205F) || (c =? 0x3000).

(** [split_aux cur s]: [cur] is the token being read, reversed. *)
Fixpoint split_aux (cur : pystr) (s : pystr) : list pystr :=
  match s with
  | [] => match cur with [] => [] | _ => [rev cur] end
  | c :: r =>
    if isspace c
    then match cur with
         | [] => split_aux [] r
         | _ => rev cur :: split_aux [] r
         end
    else split_aux (c :: cur) r
  end.

Definition split (s : pystr) : list pystr := split_aux [] s.

(** [str.rstrip(chars)] for a one-character [chars]. *)
Fixpoint drop_leading (ch : N) (l : pystr) : pystr :=
  match l with
  | c :: r => if c =? ch then drop_leading ch r else l
  | [] => []
  end.

Definition rstrip (ch : N) (s : pystr) : pystr :=
  rev (drop_leading ch (rev s)).

(** ** Exceptions, results and observable effects *)

Inductive exn_class :=
| KeyError | IndexError | UnicodeDecodeError | AttributeError | ValueError
| TypeError | OverflowError | OSError | KeyboardInterrupt | SystemExit.

(** An exception: its class and [str(e)]. *)
Record exn := Exn { exn_cls : exn_class; exn_str : pystr }.

(** [except Exception] catches everything but the [BaseException]-only
    classes. *)
Definition is_Exception (e : exn) : bool :=
  match exn_cls e with
  | KeyboardInterrupt | SystemExit => false
  | _ => true
  end.

Definition is_UnicodeDecodeError (e : exn) : bool :=
  match exn_cls e with UnicodeDecodeError => true | _ => false end.

Definition is_KeyboardInterrupt (e : exn) : bool :=
  match exn_cls e with KeyboardInterrupt => true | _ => false end.

(** How a call ends.  [StillRunning] is a loop that has not finished when the
    fuel given to it is spent. *)
Inductive result (A : Type) :=
| Ok (a : A)
| Raise (e : exn)
| StillRunning.
Arguments Ok {A} a.
Arguments Raise {A} e.
Arguments StillRunning {A}.

(** What a collaborator answers to a call. *)
Inductive answer (A : Type) :=
| Returns (a : A)
| Raises (e : exn).
Arguments Returns {A} a.
Arguments Raises {A} e.

Inductive level := DEBUG | INFO | ERROR.

(** What a run does to the outside world, in order. *)
Inductive Effect :=
| Log (lvl : level) (msg : pystr)          (* logger.debug / info / error *)
| Print (msg : pystr)                      (* print(...) *)
| Callback (callsign text : pystr)         (* self.callback(callsign, text, logger) *)
| TcpConnect (host : pystr) (port : N)     (* tcp.TCPInterface(...) *)
| Subscribe (topic : pystr)                (* pub.subscribe(..., topic) *)
| InterfaceClose                           (* interface.close() *)
| DriverConnect (url : pystr) (port : Z)   (* Driver(login_config) *)
| DriverClose                              (* driver.close() *)
| Sleep.                                   (* time.sleep(1) *)

(** ** A monad for Python code

    State [S] (the objects a piece of code can assign to), an outcome, and the
    effects in order.  State changes made before an exception stay. *)

Definition M (S A : Type) : Type := S -> result A * S * list Effect.

Definition ret {S A} (a : A) : M S A := fun st => (Ok a, st, []).

Definition raise {S A} (e : exn) : M S A := fun st => (Raise e, st, []).

Definition bind {S A B} (m : M S A) (k : A -> M S B) : M S B :=
  fun st =>
    match m st with
    | (Ok a, st1, t1) =>
      match k a st1 with
      | (r, st2, t2) => (r, st2, t1 ++ t2)
      end
    | (Raise e, st1, t1) => (Raise e, st1, t1)
    | (StillRunning, st1, t1) => (StillRunning, st1, t1)
    end.

Declare Scope py_scope.
Delimit Scope py_scope with py.
Notation "x <- m ;; k" := (bind m (fun x => k))
  (at level 100, m at next level, right associativity) : py_scope.
Notation "m ;;; k" := (bind m (fun _ => k))
  (at level 100, right associativity) : py_scope.
Local Open Scope py_scope.

Definition emit {S} (e : Effect) : M S unit := fun st => (Ok tt, st, [e]).

Definition read {S A} (f : S -> A) : M S A := fun st => (Ok (f st), st, []).

Definition assign {S} (f : S -> S) : M S unit := fun st => (Ok tt, f st, []).

(** A call into a collaborator. *)
Definition lift {S A} (r : answer A) : M S A :=
  fun st => (match r with Returns a => Ok a | Raises e => Raise e end, st, []).

(** A loop that is still going. *)
Definition still_running {S A} : M S A := fun st => (StillRunning, st, []).

(** [try: body / except <classes>: handler] *)
Definition try_except {S A} (body : M S A) (catches : exn -> bool)
    (handler : exn -> M S A) : M S A :=
  fun st =>
    match body st with
    | (Raise e, st1, t1) =>
      if catches e then
        match handler e st1 with
        | (r, st2, t2) => (r, st2, t1 ++ t2)
        end
      else (Raise e, st1, t1)
    | r => r
    end.

(** [try: body / finally: final].  An exception of [final] replaces the
    outcome of [body]; a body still running has not reached [final]. *)
Definition try_finally {S A} (body : M S A) (final : M S unit) : M S A :=
  fun st =>
    match body st with
    | (StillRunning, st1, t1) => (StillRunning, st1, t1)
    | (r, st1, t1) =>
      match final st1 with
      | (Ok _, st2, t2) => (r, st2, t1 ++ t2)
      | (Raise e, st2, t2) => (Raise e, st2, t1 ++ t2)
      | (StillRunning, st2, t2) => (StillRunning, st2, t1 ++ t2)
      end
    end.

(** ** The dictionaries the mesh library hands over

    Keys a dictionary may lack are optional fields; the shape is the one
    recorded in the comments at the head of the module. *)

(** [node_info["user"]]: each of its keys may be missing. *)
Record User := {
  user_id : option pystr;
  longName : option pystr;
  shortName : option pystr
}.

Record NodeInfo := { user : option User }.

(** [interface.nodes], keyed by node id. *)
Record Interface := { nodes : gmap pystr NodeInfo }.

Record Decoded := { portnum : option pystr; payload : option pybytes }.

Record Packet := { decoded : option Decoded; fromId : option pystr }.

Definition TEXT_MESSAGE_APP : pystr := pystr_of "TEXT_MESSAGE_APP".

(** The callback handed to the client: what it does and how it returns. *)
Definition callback_t : Type := pystr -> pystr -> answer unit * list Effect.

Record MeshtasticClient := {
  hostname : pystr;
  callback : callback_t;
  interface : option Interface
}.

(** Python passes [self], the packet and the interface to the handler by
    reference; its store holds the three objects, so that what a call leaves
    behind can be compared with what it found. *)
Record Store := {
  s_self : MeshtasticClient;
  s_packet : Packet;
  s_interface : Interface
}.

(** [str(KeyError(key))], for a key that needs no escaping: the key in
    quotes. *)
Definition QUOTE : N := 39.

Definition missing (key : string) : exn :=
  Exn KeyError (QUOTE :: pystr_of key ++ [QUOTE]).

(** [d[key]]: the value, or [KeyError]. *)
Definition subscript {S A} (field : option A) (key : string) : M S A :=
  match field with
  | Some v => ret v
  | None => raise (missing key)
  end.

(** A call of the client's callback: the call is observable, then the callback
    does what it does. *)
Definition call {S} (cb : callback_t) (callsign text : pystr) : M S unit :=
  fun st =>
    let '(r, t) := cb callsign text in
    (match r with Returns a => Ok a | Raises e => Raise e end, st,
     Callback callsign text :: t).

Definition logger_debug {S} (msg : pystr) : M S unit := emit (Log DEBUG msg).

Definition logger_info {S} (msg : pystr) : M S unit := emit (Log INFO msg).

Definition logger_error {S} (msg : pystr) : M S unit := emit (Log ERROR msg).

(** ** [MeshtasticClient._id_to_name] and [MeshtasticClient._on_receive] *)

(** The loop over [interface.nodes.items()], left at the first match.  A
    dictionary holds one entry per key, so the order in which the items come
    does not matter ([id_to_name_lookup] below). *)
Fixpoint id_to_name_loop (items : list (pystr * NodeInfo)) (id : pystr)
    (short_name long_name : pystr) : M Store (pystr * pystr) :=
  match items with
  | [] => ret (short_name, long_name)
  | (node_id, node_info) :: rest =>
    if decide (id = node_id) then
      u <- subscript (user node_info) "user";;
      long_name' <- subscript (longName u) "longName";;
      short_name' <- subscript (shortName u) "shortName";;
      ret (short_name', long_name')
    else id_to_name_loop rest id short_name long_name
  end.

Definition _id_to_name (id : pystr) : M Store (pystr * pystr) :=
  iface <- read s_interface;;
  id_to_name_loop (map_to_list (nodes iface)) id [] [].

(** The condition of the [if]: the three conjuncts, left to right. *)
Definition is_text_packet (packet : Packet) : bool :=
  match decoded packet with
  | None => false
  | Some d =>
    match portnum d with
    | None => false
    | Some pn => bool_decide (pn = TEXT_MESSAGE_APP)
    end
  end.

Definition non_utf8_message : pystr :=
  pystr_of "Received a non-UTF-8 text message.".

Section Handler.

(** [str.upper], the interpreter's case mapping. *)
Variable str_upper : pystr -> pystr.

Definition received_message (text_message callsign : pystr) : pystr :=
  pystr_of "Received message <" ++ text_message ++ pystr_of "> from "
  ++ callsign.

(** The body of the [try]. *)
Definition on_receive_body : M Store unit :=
  packet <- read s_packet;;
  d <- subscript (decoded packet) "decoded";;
  bs <- subscript (payload d) "payload";;
  (* the codec's exception is caught below and its text is not read: only
     its encoding is recorded *)
  text_message <- match utf8_decode bs with
                  | Some s => ret s
                  | None => raise (Exn UnicodeDecodeError (pystr_of "utf-8"))
                  end;;
  from_id <- subscript (fromId packet) "fromId";;
  names <- _id_to_name from_id;;
  let long_name := snd names in
  callsign <- match split long_name with
              | tok :: _ => ret (str_upper tok)
              | [] => raise (Exn IndexError (pystr_of "list index out of range"))
              end;;
  logger_debug (received_message text_message callsign);;;
  self <- read s_self;;
  call (callback self) callsign text_message.

Definition _on_receive : M Store unit :=
  packet <- read s_packet;;
  if is_text_packet packet then
    try_except on_receive_body is_UnicodeDecodeError
      (fun _ => logger_debug non_utf8_message)
  else ret tt.

End Handler.

(** ** Delivery of the mesh library's messages

    The library publishes each message on a topic; a listener runs for the
    topics it was subscribed to.  The client owns one listener,
    [_on_receive]. *)

Inductive MeshEvent :=
| Receive (packet : Packet)
| ConnectionEstablished
| ConnectionLost.

Definition RECEIVE_TOPIC : pystr := pystr_of "meshtastic.receive".

Definition topic_of (ev : MeshEvent) : pystr :=
  match ev with
  | Receive _ => RECEIVE_TOPIC
  | ConnectionEstablished => pystr_of "meshtastic.connection.established"
  | ConnectionLost => pystr_of "meshtastic.connection.lost"
  end.

(** The topics a trace subscribed to. *)
Definition subscribed (t : list Effect) : list pystr :=
  omap (fun e => match e with Subscribe topic => Some topic | _ => None end) t.

Section Delivery.

Variable str_upper : pystr -> pystr.

(** One published message, as the client sees it: the listener runs when the
    message's topic is one it listens on. *)
Definition publish (topics : list pystr) (ev : MeshEvent) : M Store unit :=
  if bool_decide (topic_of ev ∈ topics) then
    match ev with
    | Receive packet =>
      assign (fun st => {| s_self := s_self st; s_packet := packet;
                           s_interface := s_interface st |});;;
      _on_receive str_upper
    | _ => ret tt
    end
  else ret tt.

(** A sequence of messages.  What the publisher does with an exception of the
    listener is its own matter: each message's outcome is recorded, and the
    next message finds the store the previous one left. *)
Fixpoint publish_all (topics : list pystr) (evs : list MeshEvent) (st : Store)
    : list (result unit * list Effect) * Store :=
  match evs with
  | [] => ([], st)
  | ev :: rest =>
    match publish topics ev st with
    | (r, st1, t) =>
      let '(outs, st2) := publish_all topics rest st1 in
      ((r, t) :: outs, st2)
    end
  end.

End Delivery.

(** ** The collaborators

    What the libraries and the operating system answer during one run. *)

Record LoginConfig := {
  lc_url : pystr; lc_token : pystr; lc_scheme : pystr; lc_port : Z;
  lc_basepath : pystr
}.

Record DriverHandle := { driver_options : LoginConfig }.

(** A float as [int] sees it: a finite one by its integral part. *)
Inductive pyfloat :=
| Finite (integral : Z)
| Infinite
| NaN.

(** The JSON value found under the [port] key, as [int] sees it: an array or
    an object without its contents. *)
Inductive json_scalar :=
| JInt (z : Z)
| JString (s : pystr)
| JBool (b : bool)
| JFloat (x : pyfloat)
| JNull
| JArray
| JObject.

Record MattermostConfig := {
  cfg_host : option pystr; cfg_token : option pystr; cfg_scheme : option pystr;
  cfg_port : option json_scalar; cfg_basepath : option pystr;
  cfg_team : option pystr; cfg_user : option pystr
}.

Record MeshtasticConfig := { cfg_mesh_host : option pystr }.

Record Config := {
  cfg_log_level : option pystr;
  cfg_meshtastic : option MeshtasticConfig;
  cfg_mattermost : option MattermostConfig
}.

Record World := {
  (* tcp.TCPInterface(hostname=..., portNumber=..., connectNow=True) *)
  TCPInterface : pystr -> N -> answer Interface;
  (* pub.subscribe(listener, topic) *)
  pub_subscribe : pystr -> answer unit;
  (* interface.close() *)
  interface_close : answer unit;
  (* Driver(options) *)
  Driver : LoginConfig -> answer unit;
  (* driver.close() *)
  driver_close : answer unit;
  (* int(s) for a str s; None is ValueError *)
  int_of_str : pystr -> option Z;
  (* str(e) of the exception int(v) raises for a value it refuses *)
  int_error : json_scalar -> pystr;
  (* the k-th time.sleep(1) of the main thread, where signals arrive *)
  time_sleep : nat -> answer unit;
  (* the path find_config_path settles on, and what open + json.load give *)
  config_path : pystr;
  load_config : answer Config;
  (* logging.basicConfig(level=...) *)
  basicConfig : pystr -> answer unit
}.

(** ** [MeshtasticClient.__init__] and [close] *)

Definition set_interface (i : option Interface) (self : MeshtasticClient)
    : MeshtasticClient :=
  {| hostname := hostname self; callback := callback self; interface := i |}.

Definition connected_message : pystr :=
  pystr_of "[Meshtastic] Connected to Meshtastic device.".

Definition connect_error_message (e : exn) : pystr :=
  pystr_of "[Meshtastic] Error connecting to device: " ++ exn_str e.

Definition MESH_PORT : N := 4403.

Definition MeshtasticClient__init__ (w : World) (hostname_ : pystr)
    (callback_ : callback_t) : M MeshtasticClient unit :=
  assign (fun _ => {| hostname := hostname_; callback := callback_;
                      interface := None |});;;
  try_except
    (self <- read id;;
     emit (TcpConnect (hostname self) MESH_PORT);;;
     iface <- lift (TCPInterface w (hostname self) MESH_PORT);;
     assign (set_interface (Some iface));;;
     logger_debug connected_message;;;
     emit (Subscribe RECEIVE_TOPIC);;;
     lift (pub_subscribe w RECEIVE_TOPIC))
    is_Exception
    (fun e => logger_error (connect_error_message e);;; raise e).

Definition MeshtasticClient_close {S} (w : World) (self : MeshtasticClient)
    : M S unit :=
  match interface self with
  | Some _ => emit InterfaceClose;;; lift (interface_close w)
  | None =>
    raise (Exn AttributeError
             (pystr_of "'NoneType' object has no attribute 'close'"))
  end.

(** ** [MattermostClient] *)

Record MattermostClient := {
  mm_host : pystr; mm_token : pystr; mm_scheme : pystr; mm_port : Z;
  mm_basepath : pystr; mm_team : pystr; mm_user : pystr;
  mattermost_login_config : LoginConfig;
  driver : option DriverHandle
}.

Definition set_driver (d : option DriverHandle) (self : MattermostClient)
    : MattermostClient :=
  {| mm_host := mm_host self; mm_token := mm_token self;
     mm_scheme := mm_scheme self; mm_port := mm_port self;
     mm_basepath := mm_basepath self; mm_team := mm_team self;
     mm_user := mm_user self;
     mattermost_login_config := mattermost_login_config self;
     driver := d |}.

(** [int(v)] for the value under [port]. *)
Definition py_int (w : World) (v : json_scalar) : answer Z :=
  match v with
  | JInt z => Returns z
  | JString s =>
    match int_of_str w s with
    | Some z => Returns z
    | None => Raises (Exn ValueError (int_error w v))
    end
  | JBool b => Returns (if b then 1 else 0)%Z
  | JFloat (Finite z) => Returns z
  | JFloat Infinite => Raises (Exn OverflowError (int_error w v))
  | JFloat NaN => Raises (Exn ValueError (int_error w v))
  | JNull | JArray | JObject => Raises (Exn TypeError (int_error w v))
  end.

Definition SLASH : N := 47.

(** The attributes [__init__] reads from the configuration, [port] given. *)
Definition configured (config : MattermostConfig) (port : Z)
    : MattermostClient :=
  let host := default [] (cfg_host config) in
  let token := default [] (cfg_token config) in
  let scheme := default (pystr_of "http") (cfg_scheme config) in
  let basepath :=
    rstrip SLASH (default (pystr_of "/api/v4") (cfg_basepath config)) in
  {| mm_host := host; mm_token := token; mm_scheme := scheme; mm_port := port;
     mm_basepath := basepath;
     mm_team := default [] (cfg_team config);
     mm_user := default [] (cfg_user config);
     mattermost_login_config :=
       {| lc_url := host; lc_token := token; lc_scheme := scheme;
          lc_port := port; lc_basepath := basepath |};
     driver := None |}.

Definition mattermost_error_message (host : pystr) : pystr :=
  pystr_of "Could not establish a connection to the Mattermost server " ++ host.

(** The attributes are stored once [int] has returned, an object whose
    constructor raised being lost. *)
Definition MattermostClient__init__ (w : World) (config : MattermostConfig)
    : M MattermostClient unit :=
  port <- lift (py_int w (default (JInt 80) (cfg_port config)));;
  assign (fun _ => configured config port);;;
  try_except
    (self <- read id;;
     emit (DriverConnect (mm_host self) (mm_port self));;;
     lift (Driver w (mattermost_login_config self));;;
     assign (set_driver
               (Some {| driver_options := mattermost_login_config self |})))
    is_Exception
    (fun e =>
       self <- read id;;
       logger_error (mattermost_error_message (mm_host self));;;
       raise e).

Definition MattermostClient_close {S} (w : World) (self : MattermostClient)
    : M S unit :=
  match driver self with
  | Some _ => emit DriverClose;;; lift (driver_close w)
  | None =>
    raise (Exn AttributeError
             (pystr_of "'NoneType' object has no attribute 'close'"))
  end.

(** [Class(args)]: a fresh object, then [__init__] on it. *)
Definition construct {S Self} (blank : Self) (init : M Self unit) : M S Self :=
  fun st =>
    match init blank with
    | (Ok _, self, t) => (Ok self, st, t)
    | (Raise e, _, t) => (Raise e, st, t)
    | (StillRunning, _, t) => (StillRunning, st, t)
    end.

Definition blank_MeshtasticClient : MeshtasticClient :=
  {| hostname := []; callback := fun _ _ => (Returns tt, []);
     interface := None |}.

Definition blank_MattermostClient : MattermostClient :=
  configured {| cfg_host := None; cfg_token := None; cfg_scheme := None;
                cfg_port := None; cfg_basepath := None; cfg_team := None;
                cfg_user := None |} 0.

(** ** [mestastic_callback] and [main] *)

Definition mestastic_callback : callback_t :=
  fun callsign message =>
    (Returns tt,
     [Log DEBUG (pystr_of "Callback received: " ++ callsign ++ pystr_of ": "
                 ++ message)]).

(** The local variables of [main] that its [finally] reads. *)
Record Locals := {
  meshtastic_client : option MeshtasticClient;
  mattermost_client : option MattermostClient
}.

(** [while True: time.sleep(1)], the [k]-th sleep first. *)
Fixpoint keep_alive {S} (w : World) (fuel k : nat) : M S unit :=
  match fuel with
  | O => still_running
  | Datatypes.S fuel' =>
    emit Sleep;;;
    lift (time_sleep w k);;;
    keep_alive w fuel' (Datatypes.S k)
  end.

(** [config.get("meshtastic", {}).get("host", "")] *)
Definition meshtastic_host (config : Config) : pystr :=
  default [] (cfg_mesh_host
                (default {| cfg_mesh_host := None |} (cfg_meshtastic config))).

(** [config.get("mattermost", {})] *)
Definition mattermost_config (config : Config) : MattermostConfig :=
  default {| cfg_host := None; cfg_token := None; cfg_scheme := None;
             cfg_port := None; cfg_basepath := None; cfg_team := None;
             cfg_user := None |}
          (cfg_mattermost config).

Definition log_level (config : Config) : pystr :=
  default (pystr_of "DEBUG") (cfg_log_level config).

Definition exiting_message : pystr := 10 :: pystr_of "Exiting.".

Definition logging_active_message : pystr := pystr_of "Logging is active".

Definition config_error_message (w : World) (e : exn) : pystr :=
  pystr_of "Error loading config " ++ config_path w ++ pystr_of ": "
  ++ exn_str e.

(** The [try] of [main]. *)
Definition main_try (w : World) (config : Config) (fuel : nat)
    : M Locals unit :=
  c <- construct blank_MeshtasticClient
         (MeshtasticClient__init__ w (meshtastic_host config)
            mestastic_callback);;
  assign (fun l => {| meshtastic_client := Some c;
                      mattermost_client := mattermost_client l |});;;
  m <- construct blank_MattermostClient
         (MattermostClient__init__ w (mattermost_config config));;
  assign (fun l => {| meshtastic_client := meshtastic_client l;
                      mattermost_client := Some m |});;;
  keep_alive w fuel 0.

(** The [finally] of [main]. *)
Definition main_finally (w : World) : M Locals unit :=
  c <- read meshtastic_client;;
  match c with
  | Some c => MeshtasticClient_close w c
  | None => ret tt
  end;;;
  m <- read mattermost_client;;
  match m with
  | Some m => MattermostClient_close w m
  | None => ret tt
  end.

(** The [try] with its [except KeyboardInterrupt] and its [finally]. *)
Definition guarded (w : World) (config : Config) (fuel : nat) : M Locals unit :=
  try_finally
    (try_except (main_try w config fuel) is_KeyboardInterrupt
       (fun _ => logger_info exiting_message))
    (main_finally w).

Definition main (w : World) (fuel : nat) : M Locals unit :=
  loaded <- try_except
    (config <- lift (load_config w);; ret (Some config))
    is_Exception
    (fun e => emit (Print (config_error_message w e));;; ret None);;
  match loaded with
  | None => ret tt
  | Some config =>
    lift (basicConfig w (log_level config));;;
    logger_info logging_active_message;;;
    assign (fun _ => {| meshtastic_client := None; mattermost_client := None |});;;
    guarded w config fuel
  end.

Definition no_locals : Locals :=
  {| meshtastic_client := None; mattermost_client := None |}.

(** ** Vocabulary of the statements *)

(** The store with another packet in the packet's place. *)
Definition with_packet (st : Store) (packet : Packet) : Store :=
  {| s_self := s_self st; s_packet := packet; s_interface := s_interface st |}.

(** A call without the store: how it ended and what it did. *)
Definition outcome {S A} (x : result A * S * list Effect)
    : result A * list Effect :=
  (x.1.1, x.2).

(** The callback calls of a trace, and its connection attempts. *)
Definition calls (t : list Effect) : list (pystr * pystr) :=
  omap (fun e => match e with Callback c x => Some (c, x) | _ => None end) t.

Definition connects (t : list Effect) : list (pystr * N) :=
  omap (fun e => match e with TcpConnect h p => Some (h, p) | _ => None end) t.

(** The text message the handler reads off a packet, when it reads one: the
    condition of the [if] and the first statement of the [try].  None says
    that the handler has no text, not how it ends: it returns for a packet
    that is no text message or no UTF-8, and raises for one without
    payload. *)
Definition decode (packet : Packet) : option pystr :=
  if is_text_packet packet then
    d ← decoded packet; bs ← payload d; utf8_decode bs
  else None.

(** What the identity lookup answers for a directory entry. *)
Definition names_of (info : NodeInfo) (st : Store)
    : result (pystr * pystr) * Store * list Effect :=
  match user info with
  | None => (Raise (missing "user"), st, [])
  | Some u =>
    match longName u, shortName u with
    | None, _ => (Raise (missing "longName"), st, [])
    | Some _, None => (Raise (missing "shortName"), st, [])
    | Some long_name, Some short_name => (Ok (short_name, long_name), st, [])
    end
  end.

(** What the handler does once the callsign is known, by the callback's
    answer. *)
Definition dispatched (st : Store) (callsign text : pystr)
    : result unit * Store * list Effect :=
  let announce := Log DEBUG (received_message text callsign) in
  match callback (s_self st) callsign text with
  | (Returns _, t) => (Ok tt, st, announce :: Callback callsign text :: t)
  | (Raises e, t) =>
    if is_UnicodeDecodeError e
    then (Ok tt, st,
          (announce :: Callback callsign text :: t)
          ++ [Log DEBUG non_utf8_message])
    else (Raise e, st, announce :: Callback callsign text :: t)
  end.

(** The objects [main] holds once its clients are constructed, and what their
    construction does. *)
Definition mesh_client (config : Config) (iface : Interface)
    : MeshtasticClient :=
  {| hostname := meshtastic_host config; callback := mestastic_callback;
     interface := Some iface |}.

Definition chat_client (config : Config) (port : Z) : MattermostClient :=
  set_driver
    (Some {| driver_options :=
               mattermost_login_config
                 (configured (mattermost_config config) port) |})
    (configured (mattermost_config config) port).

Definition mesh_startup (config : Config) : list Effect :=
  [TcpConnect (meshtastic_host config) MESH_PORT; Log DEBUG connected_message;
   Subscribe RECEIVE_TOPIC].


(** ** Sample data *)

(** [str.upper] on ASCII text. *)
Definition ascii_upper (s : pystr) : pystr :=
  map (fun c => if in_range 97 122 c then c - 32 else c) s.

Definition quiet_callback : callback_t := fun _ _ => (Returns tt, []).

Definition failing_callback : callback_t :=
  fun _ _ => (Raises (Exn OSError (pystr_of "connection refused")), []).

Definition text_packet (bs : pybytes) (sender : pystr) : Packet :=
  {| decoded := Some {| portnum := Some TEXT_MESSAGE_APP; payload := Some bs |};
     fromId := Some sender |}.

Definition hello_packet : Packet :=
  text_packet (bytes_of "Hello") (pystr_of "!abc123").

Definition position_packet : Packet :=
  {| decoded := Some {| portnum := Some (pystr_of "POSITION_APP");
                        payload := Some (bytes_of "x") |};
     fromId := Some (pystr_of "!abc123") |}.

Definition no_payload_packet : Packet :=
  {| decoded := Some {| portnum := Some TEXT_MESSAGE_APP; payload := None |};
     fromId := Some (pystr_of "!abc123") |}.

Definition not_utf8_packet : Packet :=
  text_packet [Byte.xff; Byte.xfe] (pystr_of "!abc123").

Definition bare_packet : Packet := {| decoded := None; fromId := None |}.

Definition alice_directory : Interface :=
  {| nodes := {[ pystr_of "!abc123" :=
                   {| user := Some {| user_id := Some (pystr_of "!abc123");
                                      longName := Some (pystr_of "Alice Example");
                                      shortName := Some (pystr_of "AE") |} |} ]} |}.

Definition empty_directory : Interface := {| nodes := ∅ |}.

Definition sample_store (cb : callback_t) (packet : Packet) (iface : Interface)
    : Store :=
  {| s_self := {| hostname := pystr_of "mesh.local"; callback := cb;
                  interface := Some iface |};
     s_packet := packet; s_interface := iface |}.

Definition sample_config : Config :=
  {| cfg_log_level := None;
     cfg_meshtastic := Some {| cfg_mesh_host := Some (pystr_of "mesh.local") |};
     cfg_mattermost :=
       Some {| cfg_host := Some (pystr_of "chat.local"); cfg_token := None;
               cfg_scheme := None; cfg_port := Some (JInt 8065);
               cfg_basepath := None; cfg_team := None; cfg_user := None |} |}.

Definition refused : exn := Exn OSError (pystr_of "connection refused").

Definition interrupt : exn := Exn KeyboardInterrupt [].

(** The text CPython gives the exception of [int(v)], for a string without
    quotes or escapes, whose repr is the string between single quotes. *)
Definition not_a_number (type : string) : pystr :=
  pystr_of "int() argument must be a string, a bytes-like object or a real number, not '"
  ++ pystr_of type ++ [QUOTE].

Definition cpython_int_error (v : json_scalar) : pystr :=
  match v with
  | JString s =>
    pystr_of "invalid literal for int() with base 10: " ++ QUOTE :: s ++ [QUOTE]
  | JFloat Infinite => pystr_of "cannot convert float infinity to integer"
  | JFloat NaN => pystr_of "cannot convert float NaN to integer"
  | JNull => not_a_number "NoneType"
  | JArray => not_a_number "list"
  | JObject => not_a_number "dict"
  | JInt _ | JBool _ | JFloat (Finite _) => []
  end.

(** A run in which the mesh device answers [tcp], the chat driver answers
    [drv], and the main thread is interrupted in its [n]-th sleep. *)
Definition sample_world (tcp : answer Interface) (drv : answer unit) (n : nat)
    : World :=
  {| TCPInterface := fun _ _ => tcp;
     pub_subscribe := fun _ => Returns tt;
     interface_close := Returns tt;
     Driver := fun _ => drv;
     driver_close := Returns tt;
     int_of_str := fun _ => None;
     int_error := cpython_int_error;
     time_sleep := fun k => if (k <? n)%nat then Returns tt else Raises interrupt;
     config_path := pystr_of "config.json";
     load_config := Returns sample_config;
     basicConfig := fun _ => Returns tt |}.


(** ** [MeshtasticClient._get_long_name_from_id] *)

Definition HOSTNAME : pystr := pystr_of "w6ei-southcourt-meshtastic.local.mesh".

(** The interface the lookup opens for itself.  [iface.nodes] is None or a
    dictionary, whose items come in insertion order. *)
Record LookupInterface := { lookup_nodes : option (list (pystr * NodeInfo)) }.

(** What the device answers to the lookup's connection and to its close. *)
Record Device := {
  dev_TCPInterface : pystr -> answer LookupInterface;
  dev_close : answer unit
}.

(** The [for] loop: [return] at the first node whose user id matches. *)
Fixpoint long_name_loop {S} (items : list (pystr * NodeInfo)) (node_id : pystr)
    : M S (option pystr) :=
  match items with
  | [] => ret None
  | (_, node_data) :: rest =>
    match user node_data with
    | Some u =>
      id <- subscript (user_id u) "id";;
      if decide (id = node_id) then
        long_name <- subscript (longName u) "longName";;
        ret (Some long_name)
      else long_name_loop rest node_id
    | None => long_name_loop rest node_id
    end
  end.

Definition lookup_error_message (e : exn) : pystr :=
  pystr_of "Error connecting to Meshtastic device or retrieving data: "
  ++ exn_str e.

(** The state is the local variable [iface], unbound at first. *)
Definition _get_long_name_from_id (dev : Device) (node_id : pystr)
    : M (option LookupInterface) (option pystr) :=
  try_finally
    (try_except
       (iface <- lift (dev_TCPInterface dev HOSTNAME);;
        assign (fun _ => Some iface);;;
        match lookup_nodes iface with
        | Some (item :: items) => long_name_loop (item :: items) node_id
        | _ => ret None
        end)
       is_Exception
       (fun e => emit (Print (lookup_error_message e));;; ret None))
    (iface <- read id;;
     match iface with
     | Some _ => emit InterfaceClose;;; lift (dev_close dev)
     | None => ret tt
     end).

(** ** More vocabulary *)

(** The close calls of a trace. *)
Definition closes (t : list Effect) : list Effect :=
  omap (fun e => match e with
                 | InterfaceClose => Some e
                 | DriverClose => Some e
                 | _ => None
                 end) t.

(** The event a packet stands for, read off the handler's steps: the decoded
    text, the sender's entry in the directory with its user record and both
    names, the first token of the long name.  None where the handler
    returns early or raises. *)
Definition relay_event (str_upper : pystr -> pystr) (st : Store)
    : option (pystr * pystr) :=
  text ← decode (s_packet st);
  id ← fromId (s_packet st);
  info ← nodes (s_interface st) !! id;
  u ← user info;
  long_name ← longName u;
  _ ← shortName u;
  tok ← head (split long_name);
  Some (str_upper tok, text).

(** A node the lookup's loop goes past: it has no user record, or one with
    an id other than the one asked for. *)
Definition passed (node_id : pystr) (item : pystr * NodeInfo) : Prop :=
  user item.2 = None
  \/ exists u i, user item.2 = Some u /\ user_id u = Some i /\ i <> node_id.

(** What the search leaves for the lookup to answer and to print. *)
Definition answered (search : result (option pystr)) : option pystr * list Effect :=
  match search with
  | Ok found => (found, [])
  | Raise e => (None, [Print (lookup_error_message e)])
  | StillRunning => (None, [])
  end.

(** A device for the lookup that answers with the given nodes. *)
Definition sample_device (items : option (list (pystr * NodeInfo))) : Device :=
  {| dev_TCPInterface := fun _ => Returns {| lookup_nodes := items |};
     dev_close := Returns tt |}.

Definition named (id long short : string) : User :=
  {| user_id := Some (pystr_of id); longName := Some (pystr_of long);
     shortName := Some (pystr_of short) |}.

Definition alice_node : NodeInfo :=
  {| user := Some (named "!abc123" "Alice Example" "AE") |}.

(** A node whose user record has no id, and one with no short name. *)
Definition anonymous_node : NodeInfo :=
  {| user := Some {| user_id := None;
                     longName := Some (pystr_of "Nobody");
                     shortName := Some (pystr_of "NB") |} |}.

Definition alice_without_short_name : Interface :=
  {| nodes := {[ pystr_of "!abc123" :=
                   {| user := Some {| user_id := Some (pystr_of "!abc123");
                                      longName := Some (pystr_of "Alice Example");
                                      shortName := None |} |} ]} |}.

Definition blank_directory : Interface :=
  {| nodes := {[ pystr_of "!abc123" :=
                   {| user := Some {| user_id := Some (pystr_of "!abc123");
                                      longName := Some (pystr_of "  ");
                                      shortName := Some (pystr_of "AE") |} |} ]} |}.

(** A Unicode scalar value: a code point that is not a surrogate. *)
Definition scalar (c : N) : Prop := c < 0x110000 /\ ~ (0xD800 <= c <= 0xDFFF).

(** A byte that can occur in UTF-8 at all. *)
Definition utf8_byte (b : N) : Prop := b <> 0xC0 /\ b <> 0xC1 /\ b < 0xF5.

(** * Properties *)

(** ** The string functions on samples *)

Example utf8_hello : utf8_decode (bytes_of "Hello") = Some (pystr_of "Hello").
Proof. reflexivity. Qed.

Example utf8_two_byte :
  utf8_decode [Byte.xc3; Byte.xa9] = Some [0xE9].
Proof. reflexivity. Qed.

Example utf8_overlong : utf8_decode [Byte.xc0; Byte.x80] = None.
Proof. reflexivity. Qed.

Example utf8_surrogate : utf8_decode [Byte.xed; Byte.xa0; Byte.x80] = None.
Proof. reflexivity. Qed.

Example utf8_truncated : utf8_decode [Byte.xe2; Byte.x82] = None.
Proof. reflexivity. Qed.

Example utf8_four_byte :
  utf8_decode [Byte.xf0; Byte.x9f; Byte.x98; Byte.x80] = Some [0x1F600].
Proof. reflexivity. Qed.

Example utf8_beyond_unicode :
  utf8_decode [Byte.xf4; Byte.x90; Byte.x80; Byte.x80] = None.
Proof. reflexivity. Qed.

Example utf8_stray_continuation : utf8_decode [Byte.x80] = None.
Proof. reflexivity. Qed.

Example split_long_name :
  split (pystr_of "  W6EI South  Court ")
  = [pystr_of "W6EI"; pystr_of "South"; pystr_of "Court"].
Proof. reflexivity. Qed.

Example split_blank : split (pystr_of "   ") = [].
Proof. reflexivity. Qed.

Example rstrip_basepath :
  rstrip 47 (pystr_of "/api/v4//") = pystr_of "/api/v4".
Proof. reflexivity. Qed.

Example ascii_upper_alice : ascii_upper (pystr_of "Alice") = pystr_of "ALICE".
Proof. reflexivity. Qed.

(** ** The identity lookup is a dictionary lookup *)

Lemma id_to_name_loop_miss items id sn ln st :
  id ∉ items.*1 ->
  id_to_name_loop items id sn ln st = (Ok (sn, ln), st, []).
Proof.
  induction items as [|[k v] rest IH]; intros Hnot; simpl.
  - reflexivity.
  - destruct (decide (id = k)) as [->|Hne].
    + exfalso. apply Hnot. simpl. left.
    + apply IH. intros Hin. apply Hnot. simpl. right. exact Hin.
Qed.

Lemma id_to_name_loop_hit items id info sn ln st :
  NoDup items.*1 ->
  (id, info) ∈ items ->
  id_to_name_loop items id sn ln st = names_of info st.
Proof.
  induction items as [|[k v] rest IH]; intros Hnd Hin.
  - inversion Hin.
  - simpl in Hnd. apply NoDup_cons in Hnd as [Hk Hnd]. simpl.
    apply elem_of_cons in Hin as [Heq|Hin].
    + inversion Heq; subst. rewrite decide_True by reflexivity.
      unfold names_of, bind, subscript.
      destruct (user v) as [u|]; [|reflexivity]. simpl.
      destruct (longName u); [|reflexivity]. simpl.
      destruct (shortName u); reflexivity.
    + destruct (decide (id = k)) as [->|Hne].
      * exfalso. apply Hk. apply list_elem_of_fmap. exists (k, info). split; [reflexivity|exact Hin].
      * apply IH; assumption.
Qed.

Lemma id_to_name_lookup id st :
  _id_to_name id st =
  match nodes (s_interface st) !! id with
  | Some info => names_of info st
  | None => (Ok ([], []), st, [])
  end.
Proof.
  unfold _id_to_name, bind, read.
  destruct (nodes (s_interface st) !! id) as [info|] eqn:Hl.
  - rewrite (id_to_name_loop_hit _ id info).
    + destruct (names_of info st) as [[r s] t]. reflexivity.
    + apply NoDup_fst_map_to_list.
    + apply elem_of_map_to_list. exact Hl.
  - rewrite id_to_name_loop_miss; [reflexivity|].
    intros Hin. apply list_elem_of_fmap in Hin as [[k v] [Hk Hin]].
    simpl in Hk. subst k. apply elem_of_map_to_list in Hin. congruence.
Qed.

(** ** The paths through the handler *)

Ltac handler_unfold :=
  unfold _on_receive, on_receive_body, try_except, bind, read, subscript,
    logger_debug, emit, call, ret, raise; simpl.

Section HandlerPaths.

Variable str_upper : pystr -> pystr.

Lemma on_receive_not_text st :
  is_text_packet (s_packet st) = false ->
  _on_receive str_upper st = (Ok tt, st, []).
Proof. intros H. handler_unfold. rewrite H. reflexivity. Qed.

Lemma on_receive_no_payload st d :
  is_text_packet (s_packet st) = true ->
  decoded (s_packet st) = Some d ->
  payload d = None ->
  _on_receive str_upper st
  = (Raise (missing "payload"), st, []).
Proof. intros H Hd Hp. handler_unfold. rewrite H, Hd. simpl. rewrite Hp. reflexivity. Qed.

Lemma on_receive_not_utf8 st d bs :
  is_text_packet (s_packet st) = true ->
  decoded (s_packet st) = Some d ->
  payload d = Some bs ->
  utf8_decode bs = None ->
  _on_receive str_upper st = (Ok tt, st, [Log DEBUG non_utf8_message]).
Proof.
  intros H Hd Hp Hu. handler_unfold. rewrite H, Hd. simpl. rewrite Hp. simpl.
  rewrite Hu. reflexivity.
Qed.

Lemma on_receive_no_fromId st d bs text :
  is_text_packet (s_packet st) = true ->
  decoded (s_packet st) = Some d ->
  payload d = Some bs ->
  utf8_decode bs = Some text ->
  fromId (s_packet st) = None ->
  _on_receive str_upper st
  = (Raise (missing "fromId"), st, []).
Proof.
  intros H Hd Hp Hu Hf. handler_unfold. rewrite H, Hd. simpl. rewrite Hp. simpl.
  rewrite Hu, Hf. reflexivity.
Qed.

(** A text packet with a readable payload and a sender id: the outcome is
    decided by the directory entry. *)
Lemma on_receive_resolve st d bs text id :
  is_text_packet (s_packet st) = true ->
  decoded (s_packet st) = Some d ->
  payload d = Some bs ->
  utf8_decode bs = Some text ->
  fromId (s_packet st) = Some id ->
  _on_receive str_upper st =
  match nodes (s_interface st) !! id with
  | None =>
    (Raise (Exn IndexError (pystr_of "list index out of range")), st, [])
  | Some info =>
    match user info with
    | None => (Raise (missing "user"), st, [])
    | Some u =>
      match longName u, shortName u with
      | None, _ => (Raise (missing "longName"), st, [])
      | Some _, None => (Raise (missing "shortName"), st, [])
      | Some long_name, Some _ =>
        match split long_name with
        | [] =>
          (Raise (Exn IndexError (pystr_of "list index out of range")), st, [])
        | tok :: _ => dispatched st (str_upper tok) text
        end
      end
    end
  end.
Proof.
  intros H Hd Hp Hu Hf. handler_unfold. rewrite H, Hd. simpl. rewrite Hp. simpl.
  rewrite Hu, Hf. simpl. rewrite id_to_name_lookup.
  destruct (nodes (s_interface st) !! id) as [info|]; simpl.
  - unfold names_of. destruct (user info) as [u|]; simpl; [|reflexivity].
    destruct (longName u) as [long_name|]; simpl; [|reflexivity].
    destruct (shortName u) as [short_name|]; simpl; [|reflexivity].
    destruct (split long_name) as [|tok rest]; simpl; [reflexivity|].
    unfold dispatched.
    destruct (callback (s_self st) (str_upper tok) text) as [[[]|e] t]; simpl.
    + reflexivity.
    + destruct (is_UnicodeDecodeError e); reflexivity.
  - reflexivity.
Qed.

End HandlerPaths.

(** ** The handler leaves its objects alone *)

Section Frame.

Variable str_upper : pystr -> pystr.

Lemma on_receive_frame st :
  (_on_receive str_upper st).1.2 = st.
Proof.
  destruct (is_text_packet (s_packet st)) eqn:Htext.
  2: { rewrite on_receive_not_text by assumption. reflexivity. }
  destruct (decoded (s_packet st)) as [d|] eqn:Hd.
  2: { unfold is_text_packet in Htext. rewrite Hd in Htext. discriminate. }
  destruct (payload d) as [bs|] eqn:Hp.
  2: { erewrite on_receive_no_payload by eassumption. reflexivity. }
  destruct (utf8_decode bs) as [text|] eqn:Hu.
  2: { erewrite on_receive_not_utf8 by eassumption. reflexivity. }
  destruct (fromId (s_packet st)) as [id|] eqn:Hf.
  2: { erewrite on_receive_no_fromId by eassumption. reflexivity. }
  erewrite on_receive_resolve by eassumption.
  destruct (nodes (s_interface st) !! id) as [info|]; [|reflexivity].
  destruct (user info) as [u|]; [|reflexivity].
  destruct (longName u) as [long_name|]; [|reflexivity].
  destruct (shortName u) as [short_name|]; [|reflexivity].
  destruct (split long_name) as [|tok rest]; [reflexivity|].
  unfold dispatched.
  destruct (callback (s_self st) (str_upper tok) text) as [[[]|e] t];
    [reflexivity|].
  destruct (is_UnicodeDecodeError e); reflexivity.
Qed.

(** Without a decoded text the callback is not reached. *)
Lemma on_receive_no_text_no_call st :
  decode (s_packet st) = None ->
  calls (_on_receive str_upper st).2 = [].
Proof.
  unfold decode. intros Hdec.
  destruct (is_text_packet (s_packet st)) eqn:Htext.
  2: { rewrite on_receive_not_text by assumption. reflexivity. }
  destruct (decoded (s_packet st)) as [d|] eqn:Hd.
  2: { unfold is_text_packet in Htext. rewrite Hd in Htext. discriminate. }
  simpl in Hdec.
  destruct (payload d) as [bs|] eqn:Hp.
  2: { erewrite on_receive_no_payload by eassumption. reflexivity. }
  simpl in Hdec.
  erewrite on_receive_not_utf8 by eassumption. reflexivity.
Qed.

Lemma publish_frame topics ev st :
  (publish str_upper topics ev st).1.2
  = match ev with
    | Receive packet =>
      if bool_decide (topic_of ev ∈ topics) then with_packet st packet else st
    | _ => st
    end.
Proof.
  unfold publish. destruct (bool_decide (topic_of ev ∈ topics)).
  - destruct ev; try reflexivity.
    unfold bind, assign. fold (with_packet st packet).
    pose proof (on_receive_frame (with_packet st packet)) as Hfr.
    destruct (_on_receive str_upper (with_packet st packet)) as [[r st'] t].
    simpl in Hfr. subst st'. reflexivity.
  - destruct ev; reflexivity.
Qed.

(** The packet a store holds from an earlier message does not matter to the
    next one. *)
Lemma publish_forgets_packet topics ev st packet :
  outcome (publish str_upper topics ev (with_packet st packet))
  = outcome (publish str_upper topics ev st).
Proof.
  unfold publish. destruct (bool_decide (topic_of ev ∈ topics)).
  - destruct ev; try reflexivity.
  - reflexivity.
Qed.

End Frame.

Section Sequences.

Variable str_upper : pystr -> pystr.

Lemma publish_all_outcomes topics evs st :
  (publish_all str_upper topics evs st).1
  = map (fun ev => outcome (publish str_upper topics ev st)) evs.
Proof.
  revert st. induction evs as [|ev rest IH]; intros st; simpl.
  - reflexivity.
  - pose proof (publish_frame str_upper topics ev st) as Hfr.
    destruct (publish str_upper topics ev st) as [[r st1] t] eqn:Hpub.
    simpl in Hfr. specialize (IH st1).
    destruct (publish_all str_upper topics rest st1) as [outs st2].
    simpl in *. f_equal. rewrite IH.
    apply map_ext. intros ev'.
    destruct ev as [packet| |]; subst st1; try reflexivity.
    destruct (bool_decide _); [|reflexivity].
    apply publish_forgets_packet.
Qed.

Lemma publish_all_objects topics evs st :
  s_self (publish_all str_upper topics evs st).2 = s_self st
  /\ s_interface (publish_all str_upper topics evs st).2 = s_interface st.
Proof.
  revert st. induction evs as [|ev rest IH]; intros st; simpl.
  - split; reflexivity.
  - pose proof (publish_frame str_upper topics ev st) as Hfr.
    destruct (publish str_upper topics ev st) as [[r st1] t] eqn:Hpub.
    simpl in Hfr. specialize (IH st1).
    destruct (publish_all str_upper topics rest st1) as [outs st2].
    simpl in *. destruct IH as [-> ->]. subst st1.
    destruct ev; try (split; reflexivity).
    destruct (bool_decide _); split; reflexivity.
Qed.

End Sequences.

(** ** Packets the handler passes over *)

(** C10.  A packet with no decoded section, or whose decoded section has no
    port tag, makes the handler return normally: no exception, no log line,
    no call of the callback, the store as it was. *)
Theorem C10_guards_skip_silently (str_upper : pystr -> pystr) (st : Store) :
  decoded (s_packet st) = None
  \/ (exists d, decoded (s_packet st) = Some d /\ portnum d = None) ->
  _on_receive str_upper st = (Ok tt, st, []).
Proof.
  intros H. apply on_receive_not_text. unfold is_text_packet.
  destruct H as [->|[d [-> ->]]]; reflexivity.
Qed.

Lemma C10_guards_skip_silently_witness :
  _on_receive ascii_upper (sample_store quiet_callback bare_packet alice_directory)
  = (Ok tt, sample_store quiet_callback bare_packet alice_directory, []).
Proof.
  apply (C10_guards_skip_silently ascii_upper
           (sample_store quiet_callback bare_packet alice_directory)).
  left. reflexivity.
Defined.

Lemma is_text_packet_tag (packet : Packet) :
  is_text_packet packet = true
  <-> exists d, decoded packet = Some d /\ portnum d = Some TEXT_MESSAGE_APP.
Proof.
  unfold is_text_packet. destruct (decoded packet) as [d|].
  - destruct (portnum d) as [pn|] eqn:Hpn.
    + rewrite bool_decide_eq_true. split.
      * intros ->. eauto.
      * intros (d' & [= <-] & Hd'). congruence.
    + split; [discriminate|]. intros (d' & [= <-] & Hd'). congruence.
  - split; [discriminate|]. intros (d' & [=] & _).
Qed.

(** C5, as the code has it.  A packet whose port tag is not the text-message
    type (or is missing, with or without a decoded section) makes the handler
    return None with nothing done, the POSITION_APP packet among them; a
    text-message payload that is not valid UTF-8 makes it return None after
    one debug line.  A text-message packet without a payload field makes it
    raise KeyError.  In none of the three cases is the callback called. *)
Theorem C5_failed_decode_never_dispatched (str_upper : pystr -> pystr)
    (st : Store) :
  (decoded (s_packet st) = None
   \/ (exists d, decoded (s_packet st) = Some d
                 /\ portnum d <> Some TEXT_MESSAGE_APP) ->
   _on_receive str_upper st = (Ok tt, st, []))
  /\ (forall d bs,
        decoded (s_packet st) = Some d ->
        portnum d = Some TEXT_MESSAGE_APP ->
        payload d = Some bs ->
        utf8_decode bs = None ->
        _on_receive str_upper st = (Ok tt, st, [Log DEBUG non_utf8_message]))
  /\ (forall d,
        decoded (s_packet st) = Some d ->
        portnum d = Some TEXT_MESSAGE_APP ->
        payload d = None ->
        _on_receive str_upper st = (Raise (missing "payload"), st, []))
  /\ (forall cb iface,
        _on_receive str_upper (sample_store cb position_packet iface)
        = (Ok tt, sample_store cb position_packet iface, [])).
Proof.
  split_and!.
  - intros H. apply on_receive_not_text.
    destruct (is_text_packet (s_packet st)) eqn:Ht; [|reflexivity].
    apply is_text_packet_tag in Ht as (d & Hd & Hpn).
    destruct H as [H|(d' & Hd' & Hne)]; congruence.
  - intros d bs Hd Hpn Hp Hu. eapply on_receive_not_utf8; try eassumption.
    apply is_text_packet_tag. eauto.
  - intros d Hd Hpn Hp. eapply on_receive_no_payload; try eassumption.
    apply is_text_packet_tag. eauto.
  - intros cb iface. apply on_receive_not_text. reflexivity.
Qed.

Lemma C5_failed_decode_never_dispatched_witness :
  _on_receive ascii_upper
    (sample_store quiet_callback not_utf8_packet alice_directory)
  = (Ok tt, sample_store quiet_callback not_utf8_packet alice_directory,
     [Log DEBUG non_utf8_message]).
Proof.
  apply (proj1 (proj2 (C5_failed_decode_never_dispatched ascii_upper
                         (sample_store quiet_callback not_utf8_packet
                            alice_directory)))
           {| portnum := Some TEXT_MESSAGE_APP;
              payload := Some [Byte.xff; Byte.xfe] |}
           [Byte.xff; Byte.xfe]);
    reflexivity.
Defined.

(** C5 fails as stated: a packet that fails decode for want of a payload does
    not make the handler yield None; it raises KeyError. *)
Lemma C5_no_payload_is_not_none :
  _on_receive ascii_upper
    (sample_store quiet_callback no_payload_packet empty_directory)
  = (Raise (missing "payload"),
     sample_store quiet_callback no_payload_packet empty_directory, []).
Proof. reflexivity. Qed.

(** C1, as the code has it.  The handler does not raise, and returns None
    without calling the callback, for a packet with no decoded section, with
    no port tag, with a port tag other than the text-message type, or with a
    text payload that is not valid UTF-8. *)
Theorem C1_skipped_packets_do_not_raise (str_upper : pystr -> pystr)
    (st : Store) :
  is_text_packet (s_packet st) = false
  \/ (exists d bs, decoded (s_packet st) = Some d /\ payload d = Some bs
                   /\ utf8_decode bs = None) ->
  exists t, _on_receive str_upper st = (Ok tt, st, t) /\ calls t = [].
Proof.
  intros [H|[d [bs [Hd [Hp Hu]]]]].
  - exists []. split; [|reflexivity]. apply on_receive_not_text. exact H.
  - destruct (is_text_packet (s_packet st)) eqn:Htext.
    + exists [Log DEBUG non_utf8_message]. split; [|reflexivity].
      eapply on_receive_not_utf8; eassumption.
    + exists []. split; [|reflexivity]. apply on_receive_not_text. exact Htext.
Qed.

Lemma C1_skipped_packets_do_not_raise_witness :
  exists t,
    _on_receive ascii_upper
      (sample_store quiet_callback not_utf8_packet alice_directory)
    = (Ok tt, sample_store quiet_callback not_utf8_packet alice_directory, t)
    /\ calls t = [].
Proof.
  apply (C1_skipped_packets_do_not_raise ascii_upper
           (sample_store quiet_callback not_utf8_packet alice_directory)).
  right. eexists. eexists. repeat split; reflexivity.
Defined.

(** C1 fails as stated: a packet with the text-message port tag and no payload
    field makes the handler raise KeyError. *)
Lemma C1_no_payload_raises :
  _on_receive ascii_upper
    (sample_store quiet_callback no_payload_packet alice_directory)
  = (Raise (missing "payload"),
     sample_store quiet_callback no_payload_packet alice_directory, []).
Proof. reflexivity. Qed.

(** ** Identity resolution *)

(** C2, at the code.  For a text packet whose sender is not in the directory
    the lookup returns the pair of empty names without raising; the handler
    then raises IndexError on the empty long name, before the callback: the
    message is dropped. *)
Theorem C2_unknown_sender_is_dropped (str_upper : pystr -> pystr)
    (st : Store) (d : Decoded) (bs : pybytes) (text id : pystr) :
  is_text_packet (s_packet st) = true ->
  decoded (s_packet st) = Some d ->
  payload d = Some bs ->
  utf8_decode bs = Some text ->
  fromId (s_packet st) = Some id ->
  nodes (s_interface st) !! id = None ->
  _id_to_name id st = (Ok ([], []), st, [])
  /\ _on_receive str_upper st
     = (Raise (Exn IndexError (pystr_of "list index out of range")), st, []).
Proof.
  intros H Hd Hp Hu Hf Hn. split.
  - rewrite id_to_name_lookup, Hn. reflexivity.
  - erewrite on_receive_resolve by eassumption. rewrite Hn. reflexivity.
Qed.

Lemma C2_unknown_sender_is_dropped_witness :
  _id_to_name (pystr_of "!abc123")
    (sample_store quiet_callback hello_packet empty_directory)
  = (Ok ([], []), sample_store quiet_callback hello_packet empty_directory, [])
  /\ _on_receive ascii_upper
       (sample_store quiet_callback hello_packet empty_directory)
     = (Raise (Exn IndexError (pystr_of "list index out of range")),
        sample_store quiet_callback hello_packet empty_directory, []).
Proof.
  apply (C2_unknown_sender_is_dropped ascii_upper
           (sample_store quiet_callback hello_packet empty_directory)
           {| portnum := Some TEXT_MESSAGE_APP;
              payload := Some (bytes_of "Hello") |}
           (bytes_of "Hello") (pystr_of "Hello") (pystr_of "!abc123"));
    reflexivity.
Defined.

(** C4, as the code has it.  For a text packet whose sender is in the
    directory, the callback is called with the upper-cased first
    whitespace-delimited token of the long name, and with the decoded text,
    when the entry has a user record that holds a long name with at least one
    token and a short name.  Otherwise nothing is dispatched: the handler
    raises KeyError for the first of the keys user, longName and shortName
    that is missing, and IndexError for a long name without a token.  With
    Alice Example (short name AE) under !abc123, the Hello packet is
    dispatched as (ALICE, Hello). *)
Theorem C4_known_sender_callsign (str_upper : pystr -> pystr) (st : Store)
    (d : Decoded) (bs : pybytes) (text id : pystr) (info : NodeInfo) :
  is_text_packet (s_packet st) = true ->
  decoded (s_packet st) = Some d ->
  payload d = Some bs ->
  utf8_decode bs = Some text ->
  fromId (s_packet st) = Some id ->
  nodes (s_interface st) !! id = Some info ->
  (forall u long_name short_name tok rest,
     user info = Some u ->
     longName u = Some long_name ->
     shortName u = Some short_name ->
     split long_name = tok :: rest ->
     exists r t,
       _on_receive str_upper st
       = (r, st,
          Log DEBUG (received_message text (str_upper tok))
          :: Callback (str_upper tok) text :: t))
  /\ match user info with
     | None => _on_receive str_upper st = (Raise (missing "user"), st, [])
     | Some u =>
       match longName u, shortName u with
       | None, _ =>
         _on_receive str_upper st = (Raise (missing "longName"), st, [])
       | Some _, None =>
         _on_receive str_upper st = (Raise (missing "shortName"), st, [])
       | Some long_name, Some _ =>
         split long_name = [] ->
         _on_receive str_upper st
         = (Raise (Exn IndexError (pystr_of "list index out of range")),
            st, [])
       end
     end
  /\ (str_upper (pystr_of "Alice") = pystr_of "ALICE" ->
      _on_receive str_upper
        (sample_store quiet_callback hello_packet alice_directory)
      = (Ok tt, sample_store quiet_callback hello_packet alice_directory,
         [Log DEBUG (received_message (pystr_of "Hello") (pystr_of "ALICE"));
          Callback (pystr_of "ALICE") (pystr_of "Hello")])).
Proof.
  intros H Hd Hp Hu Hf Hn. split_and!.
  - intros u long_name short_name tok rest Huser Hln Hsn Hs.
    erewrite on_receive_resolve by eassumption.
    rewrite Hn, Huser, Hln, Hsn, Hs. unfold dispatched.
    destruct (callback (s_self st) (str_upper tok) text) as [[[]|e] t].
    + eauto.
    + destruct (is_UnicodeDecodeError e); eauto.
  - erewrite on_receive_resolve by eassumption. rewrite Hn.
    destruct (user info) as [u|]; [|reflexivity].
    destruct (longName u) as [long_name|]; [|reflexivity].
    destruct (shortName u) as [short_name|]; [|reflexivity].
    intros ->. reflexivity.
  - intros Hup.
    erewrite (on_receive_resolve str_upper _ _ (bytes_of "Hello")
                (pystr_of "Hello") (pystr_of "!abc123")); try reflexivity.
    change (nodes (s_interface
              (sample_store quiet_callback hello_packet alice_directory)))
      with (nodes alice_directory).
    unfold alice_directory at 1. cbv beta iota delta [nodes].
    rewrite lookup_singleton_eq.
    cbv beta iota delta [user longName shortName].
    change (split (pystr_of "Alice Example"))
      with [pystr_of "Alice"; pystr_of "Example"].
    cbv beta iota. rewrite Hup. reflexivity.
Qed.

Lemma C4_known_sender_callsign_witness :
  (exists r t,
     _on_receive ascii_upper
       (sample_store quiet_callback hello_packet alice_directory)
     = (r, sample_store quiet_callback hello_packet alice_directory,
        Log DEBUG (received_message (pystr_of "Hello")
                     (ascii_upper (pystr_of "Alice")))
        :: Callback (ascii_upper (pystr_of "Alice")) (pystr_of "Hello") :: t))
  /\ (ascii_upper (pystr_of "Alice") = pystr_of "ALICE" ->
      _on_receive ascii_upper
        (sample_store quiet_callback hello_packet alice_directory)
      = (Ok tt, sample_store quiet_callback hello_packet alice_directory,
         [Log DEBUG (received_message (pystr_of "Hello") (pystr_of "ALICE"));
          Callback (pystr_of "ALICE") (pystr_of "Hello")])).
Proof.
  destruct (C4_known_sender_callsign ascii_upper
              (sample_store quiet_callback hello_packet alice_directory)
              {| portnum := Some TEXT_MESSAGE_APP;
                 payload := Some (bytes_of "Hello") |}
              (bytes_of "Hello") (pystr_of "Hello") (pystr_of "!abc123")
              alice_node eq_refl eq_refl eq_refl eq_refl eq_refl eq_refl)
    as (Hcall & _ & Hsample).
  split; [|exact Hsample].
  exact (Hcall (named "!abc123" "Alice Example" "AE")
           (pystr_of "Alice Example") (pystr_of "AE")
           (pystr_of "Alice") [pystr_of "Example"]
           eq_refl eq_refl eq_refl eq_refl).
Defined.

(** C4 fails as stated: the sender is in the directory under the long name
    Alice Example, but its user record has no short name; the handler raises
    KeyError and the callback is not called. *)
Lemma C4_missing_short_name_raises :
  _on_receive ascii_upper
    (sample_store quiet_callback hello_packet alice_without_short_name)
  = (Raise (missing "shortName"),
     sample_store quiet_callback hello_packet alice_without_short_name, []).
Proof. vm_compute. reflexivity. Qed.

(** ** Dispatch *)

Lemma publish_receive (str_upper : pystr -> pystr) (st : Store)
    (packet : Packet) :
  publish str_upper [RECEIVE_TOPIC] (Receive packet) st
  = _on_receive str_upper (with_packet st packet).
Proof.
  unfold publish.
  replace (bool_decide (topic_of (Receive packet) ∈ [RECEIVE_TOPIC]))
    with true by (symmetry; apply bool_decide_eq_true; simpl; left).
  unfold bind, assign. fold (with_packet st packet).
  destruct (_on_receive str_upper (with_packet st packet)) as [[r st'] t].
  reflexivity.
Qed.

Lemma with_packet_same (st : Store) : with_packet st (s_packet st) = st.
Proof. destruct st. reflexivity. Qed.

(** C6, as the code has it.  An error the callback raises during dispatch is
    not caught at a dispatch boundary and not logged: unless it is a
    UnicodeDecodeError it leaves the handler as it came.  The handler keeps
    nothing from one packet to the next, so the packet published after the
    failed one is handled exactly as the handler handles it alone. *)
Theorem C6_callback_error_propagates (str_upper : pystr -> pystr) (st : Store)
    (d : Decoded) (bs : pybytes) (text id : pystr) (info : NodeInfo) (u : User)
    (long_name short_name tok : pystr) (rest : list pystr) (e : exn)
    (t : list Effect) :
  is_text_packet (s_packet st) = true ->
  decoded (s_packet st) = Some d ->
  payload d = Some bs ->
  utf8_decode bs = Some text ->
  fromId (s_packet st) = Some id ->
  nodes (s_interface st) !! id = Some info ->
  user info = Some u ->
  longName u = Some long_name ->
  shortName u = Some short_name ->
  split long_name = tok :: rest ->
  callback (s_self st) (str_upper tok) text = (Raises e, t) ->
  is_UnicodeDecodeError e = false ->
  let failed :=
    (Raise e,
     Log DEBUG (received_message text (str_upper tok))
     :: Callback (str_upper tok) text :: t) in
  outcome (_on_receive str_upper st) = failed
  /\ forall next,
       (publish_all str_upper [RECEIVE_TOPIC]
          [Receive (s_packet st); Receive next] st).1
       = [failed; outcome (_on_receive str_upper (with_packet st next))].
Proof.
  intros H Hd Hp Hu Hf Hn Huser Hln Hsn Hs Hcb He failed.
  assert (Hout : outcome (_on_receive str_upper st) = failed).
  { erewrite on_receive_resolve by eassumption.
    rewrite Hn, Huser, Hln, Hsn, Hs.
    unfold dispatched. rewrite Hcb, He. reflexivity. }
  split; [exact Hout|].
  intros next. rewrite publish_all_outcomes. simpl.
  rewrite !publish_receive, with_packet_same, Hout. reflexivity.
Qed.

Lemma C6_callback_error_propagates_witness :
  let st := sample_store failing_callback hello_packet alice_directory in
  let failed :=
    (Raise (Exn OSError (pystr_of "connection refused")),
     [Log DEBUG (received_message (pystr_of "Hello")
                   (ascii_upper (pystr_of "Alice")));
      Callback (ascii_upper (pystr_of "Alice")) (pystr_of "Hello")]) in
  outcome (_on_receive ascii_upper st) = failed
  /\ forall next,
       (publish_all ascii_upper [RECEIVE_TOPIC]
          [Receive (s_packet st); Receive next] st).1
       = [failed; outcome (_on_receive ascii_upper (with_packet st next))].
Proof.
  apply (C6_callback_error_propagates ascii_upper
           (sample_store failing_callback hello_packet alice_directory)
           {| portnum := Some TEXT_MESSAGE_APP;
              payload := Some (bytes_of "Hello") |}
           (bytes_of "Hello") (pystr_of "Hello") (pystr_of "!abc123")
           alice_node (named "!abc123" "Alice Example" "AE")
           (pystr_of "Alice Example") (pystr_of "AE")
           (pystr_of "Alice") [pystr_of "Example"]
           (Exn OSError (pystr_of "connection refused")) []);
    vm_compute; reflexivity.
Defined.

(** C6 fails as stated: with a callback that raises OSError the handler raises
    that OSError, and logs nothing about the failure. *)
Lemma C6_callback_error_not_caught :
  _on_receive ascii_upper
    (sample_store failing_callback hello_packet alice_directory)
  = (Raise (Exn OSError (pystr_of "connection refused")),
     sample_store failing_callback hello_packet alice_directory,
     [Log DEBUG (received_message (pystr_of "Hello") (pystr_of "ALICE"));
      Callback (pystr_of "ALICE") (pystr_of "Hello")]).
Proof. vm_compute. reflexivity. Qed.

(** ** Purity *)

(** C8.  Handling a packet leaves the client, the packet and the directory as
    they were, and handling it again from the store the first call left gives
    the same outcome and the same dispatched event; so does publishing the
    same packet twice. *)
Theorem C8_decoding_is_repeatable (str_upper : pystr -> pystr) (st : Store) :
  (_on_receive str_upper st).1.2 = st
  /\ _on_receive str_upper (_on_receive str_upper st).1.2
     = _on_receive str_upper st
  /\ calls (_on_receive str_upper (_on_receive str_upper st).1.2).2
     = calls (_on_receive str_upper st).2
  /\ forall topics packet,
       (publish_all str_upper topics [Receive packet; Receive packet] st).1
       = [outcome (publish str_upper topics (Receive packet) st);
          outcome (publish str_upper topics (Receive packet) st)].
Proof.
  pose proof (on_receive_frame str_upper st) as Hfr.
  repeat split.
  - exact Hfr.
  - rewrite Hfr. reflexivity.
  - rewrite Hfr. reflexivity.
  - intros topics packet. rewrite publish_all_outcomes. reflexivity.
Qed.

(** ** The constructors *)

Ltac py_unfold :=
  unfold try_finally, try_except, bind, construct, lift, read, assign, emit,
    ret, raise, logger_debug, logger_info, logger_error, still_running.

Lemma mesh_init_connected w host cb iface blank :
  TCPInterface w host MESH_PORT = Returns iface ->
  pub_subscribe w RECEIVE_TOPIC = Returns tt ->
  MeshtasticClient__init__ w host cb blank
  = (Ok tt, {| hostname := host; callback := cb; interface := Some iface |},
     [TcpConnect host MESH_PORT; Log DEBUG connected_message;
      Subscribe RECEIVE_TOPIC]).
Proof.
  intros Htcp Hsub. unfold MeshtasticClient__init__. py_unfold. simpl.
  rewrite Htcp, Hsub. reflexivity.
Qed.

Lemma mesh_init_refused w host cb e blank :
  TCPInterface w host MESH_PORT = Raises e ->
  is_Exception e = true ->
  MeshtasticClient__init__ w host cb blank
  = (Raise e, {| hostname := host; callback := cb; interface := None |},
     [TcpConnect host MESH_PORT; Log ERROR (connect_error_message e)]).
Proof.
  intros Htcp He. unfold MeshtasticClient__init__. py_unfold. simpl.
  rewrite Htcp, He. reflexivity.
Qed.

Lemma mesh_init_inv w host cb blank self t :
  MeshtasticClient__init__ w host cb blank = (Ok tt, self, t) ->
  exists iface,
    self = {| hostname := host; callback := cb; interface := Some iface |}
    /\ t = [TcpConnect host MESH_PORT; Log DEBUG connected_message;
            Subscribe RECEIVE_TOPIC].
Proof.
  unfold MeshtasticClient__init__. py_unfold. simpl.
  destruct (TCPInterface w host MESH_PORT) as [iface|e]; simpl.
  - destruct (pub_subscribe w RECEIVE_TOPIC) as [[]|e]; simpl.
    + intros [= <- <-]. eauto.
    + destruct (is_Exception e); simpl; intros [=].
  - destruct (is_Exception e); simpl; intros [=].
Qed.


Lemma mm_init_refused w config port e blank :
  py_int w (default (JInt 80) (cfg_port config)) = Returns port ->
  Driver w (mattermost_login_config (configured config port)) = Raises e ->
  is_Exception e = true ->
  MattermostClient__init__ w config blank
  = (Raise e, configured config port,
     [DriverConnect (mm_host (configured config port)) port;
      Log ERROR (mattermost_error_message (mm_host (configured config port)))]).
Proof.
  intros Hport Hdrv He. unfold MattermostClient__init__. py_unfold.
  rewrite Hport. cbv beta iota. simpl mattermost_login_config.
  simpl in Hdrv. rewrite Hdrv, He. reflexivity.
Qed.

(** ** The main loop *)

Lemma keep_alive_running {S} w fuel k (st : S) :
  (forall j, time_sleep w j = Returns tt) ->
  keep_alive w fuel k st = (StillRunning, st, replicate fuel Sleep).
Proof.
  intros Hs. revert k. induction fuel as [|fuel IH]; intros k; simpl.
  - reflexivity.
  - py_unfold. rewrite Hs. rewrite IH. reflexivity.
Qed.


(** ** [main] *)

Lemma main_started w config fuel :
  load_config w = Returns config ->
  basicConfig w (log_level config) = Returns tt ->
  main w fuel no_locals
  = (let '(r, l, t) := guarded w config fuel no_locals in
     (r, l, Log INFO logging_active_message :: t)).
Proof.
  intros Hc Hb. unfold main. unfold bind at 1. unfold try_except at 1.
  unfold bind at 1. unfold lift at 1. rewrite Hc. unfold ret at 1.
  cbv beta iota. unfold bind at 1. unfold lift at 1. rewrite Hb.
  unfold bind at 1. unfold logger_info at 1, emit at 1.
  unfold bind at 1. unfold assign at 1. fold no_locals.
  fold (guarded w config fuel).
  destruct (guarded w config fuel no_locals) as [[r l] t]. reflexivity.
Qed.

Lemma main_try_mesh_refused w config fuel e :
  TCPInterface w (meshtastic_host config) MESH_PORT = Raises e ->
  is_Exception e = true ->
  main_try w config fuel no_locals
  = (Raise e, no_locals,
     [TcpConnect (meshtastic_host config) MESH_PORT;
      Log ERROR (connect_error_message e)]).
Proof.
  intros Htcp He. unfold main_try. unfold bind at 1, construct at 1.
  rewrite (mesh_init_refused _ _ _ e) by assumption. reflexivity.
Qed.

Lemma main_try_chat w config fuel iface :
  TCPInterface w (meshtastic_host config) MESH_PORT = Returns iface ->
  pub_subscribe w RECEIVE_TOPIC = Returns tt ->
  main_try w config fuel no_locals
  = (let l1 := {| meshtastic_client := Some (mesh_client config iface);
                  mattermost_client := None |} in
     match MattermostClient__init__ w (mattermost_config config)
             blank_MattermostClient with
     | (Ok _, m, t) =>
       let l2 := {| meshtastic_client := Some (mesh_client config iface);
                    mattermost_client := Some m |} in
       let '(r, l, t') := keep_alive w fuel 0 l2 in
       (r, l, mesh_startup config ++ t ++ t')
     | (Raise e, _, t) => (Raise e, l1, mesh_startup config ++ t)
     | (StillRunning, _, t) => (StillRunning, l1, mesh_startup config ++ t)
     end).
Proof.
  intros Htcp Hsub. unfold main_try. unfold bind at 1, construct at 1.
  rewrite (mesh_init_connected _ _ _ iface) by assumption.
  cbv beta iota. unfold bind at 1, assign at 1. cbv beta iota.
  unfold bind at 1, construct at 1.
  fold (mesh_client config iface). simpl mattermost_client.
  destruct (MattermostClient__init__ w (mattermost_config config)
              blank_MattermostClient) as [[[[]|e|] m] t]; try reflexivity.
  cbv beta iota. unfold bind at 1, assign at 1. cbv beta iota.
  simpl meshtastic_client.
  destruct (keep_alive w fuel 0 _) as [[r l] t']. simpl.
  reflexivity.
Qed.

(** C7.  A failure of the initial connection is fatal.  When the mesh device
    cannot be reached the constructor logs the error and raises it, and [main]
    ends with that exception without entering its loop; when the chat driver
    cannot be set up its constructor logs and raises likewise, and [main],
    having closed the mesh connection, ends with an exception, again without
    entering its loop. *)
Theorem C7_initial_connection_failure_is_fatal (w : World) (config : Config)
    (fuel : nat) (e : exn) :
  load_config w = Returns config ->
  basicConfig w (log_level config) = Returns tt ->
  is_Exception e = true ->
  (TCPInterface w (meshtastic_host config) MESH_PORT = Raises e ->
   MeshtasticClient__init__ w (meshtastic_host config) mestastic_callback
     blank_MeshtasticClient
   = (Raise e,
      {| hostname := meshtastic_host config; callback := mestastic_callback;
         interface := None |},
      [TcpConnect (meshtastic_host config) MESH_PORT;
       Log ERROR (connect_error_message e)])
   /\ main w fuel no_locals
      = (Raise e, no_locals,
         [Log INFO logging_active_message;
          TcpConnect (meshtastic_host config) MESH_PORT;
          Log ERROR (connect_error_message e)]))
  /\ (forall iface port,
        TCPInterface w (meshtastic_host config) MESH_PORT = Returns iface ->
        pub_subscribe w RECEIVE_TOPIC = Returns tt ->
        py_int w (default (JInt 80) (cfg_port (mattermost_config config)))
        = Returns port ->
        Driver w (mattermost_login_config
                    (configured (mattermost_config config) port))
        = Raises e ->
        let failure :=
          [DriverConnect (mm_host (configured (mattermost_config config) port))
             port;
           Log ERROR
             (mattermost_error_message
                (mm_host (configured (mattermost_config config) port)))] in
        MattermostClient__init__ w (mattermost_config config)
          blank_MattermostClient
        = (Raise e, configured (mattermost_config config) port, failure)
        /\ main w fuel no_locals
           = (Raise (match interface_close w with
                     | Returns _ => e
                     | Raises e' => e'
                     end),
              {| meshtastic_client := Some (mesh_client config iface);
                 mattermost_client := None |},
              Log INFO logging_active_message
              :: mesh_startup config ++ failure ++ [InterfaceClose])).
Proof.
  intros Hc Hb He.
  assert (Hki : is_KeyboardInterrupt e = false).
  { unfold is_Exception, is_KeyboardInterrupt in *.
    destruct (exn_cls e); congruence. }
  split.
  - intros Htcp. split.
    + apply mesh_init_refused; assumption.
    + rewrite (main_started w config fuel) by assumption. unfold guarded.
      unfold try_finally, try_except.
      rewrite (main_try_mesh_refused w config fuel e) by assumption.
      rewrite Hki. reflexivity.
  - intros iface port Htcp Hsub Hport Hdrv failure. split.
    + apply mm_init_refused; assumption.
    + rewrite (main_started w config fuel) by assumption. unfold guarded.
      unfold try_finally, try_except.
      rewrite (main_try_chat w config fuel iface) by assumption.
      rewrite (mm_init_refused w (mattermost_config config) port e)
        by assumption.
      cbv beta iota zeta. rewrite Hki.
      unfold main_finally, MeshtasticClient_close. py_unfold. simpl.
      destruct (interface_close w) as [[]|e']; reflexivity.
Qed.


Lemma C7_initial_connection_failure_is_fatal_witness :
  main (sample_world (Raises refused) (Returns tt) 2) 5 no_locals
  = (Raise refused, no_locals,
     [Log INFO logging_active_message;
      TcpConnect (pystr_of "mesh.local") MESH_PORT;
      Log ERROR (connect_error_message refused)]).
Proof.
  exact (proj2 (proj1 (C7_initial_connection_failure_is_fatal
                         (sample_world (Raises refused) (Returns tt) 2)
                         sample_config 5 refused eq_refl eq_refl eq_refl)
                  eq_refl)).
Defined.



(** ** Link loss *)

Section LinkLoss.

Variable str_upper : pystr -> pystr.

Lemma connects_app (t1 t2 : list Effect) :
  connects (t1 ++ t2) = connects t1 ++ connects t2.
Proof. unfold connects. apply omap_app. Qed.

Lemma on_receive_no_connect st :
  (forall c x, connects (callback (s_self st) c x).2 = []) ->
  connects (_on_receive str_upper st).2 = [].
Proof.
  intros Hcb.
  destruct (is_text_packet (s_packet st)) eqn:Htext.
  2: { rewrite on_receive_not_text by assumption. reflexivity. }
  destruct (decoded (s_packet st)) as [d|] eqn:Hd.
  2: { unfold is_text_packet in Htext. rewrite Hd in Htext. discriminate. }
  destruct (payload d) as [bs|] eqn:Hp.
  2: { erewrite on_receive_no_payload by eassumption. reflexivity. }
  destruct (utf8_decode bs) as [text|] eqn:Hu.
  2: { erewrite on_receive_not_utf8 by eassumption. reflexivity. }
  destruct (fromId (s_packet st)) as [id|] eqn:Hf.
  2: { erewrite on_receive_no_fromId by eassumption. reflexivity. }
  erewrite on_receive_resolve by eassumption.
  destruct (nodes (s_interface st) !! id) as [info|]; [|reflexivity].
  destruct (user info) as [u|]; [|reflexivity].
  destruct (longName u) as [long_name|]; [|reflexivity].
  destruct (shortName u) as [short_name|]; [|reflexivity].
  destruct (split long_name) as [|tok rest]; [reflexivity|].
  unfold dispatched. specialize (Hcb (str_upper tok) text).
  destruct (callback (s_self st) (str_upper tok) text) as [[[]|e] t];
    simpl in Hcb.
  - simpl. exact Hcb.
  - destruct (is_UnicodeDecodeError e); simpl.
    + change (connects (t ++ [Log DEBUG non_utf8_message]) = []).
      rewrite connects_app, Hcb. reflexivity.
    + exact Hcb.
Qed.

Lemma publish_no_connect topics ev st :
  (forall c x, connects (callback (s_self st) c x).2 = []) ->
  connects (publish str_upper topics ev st).2 = [].
Proof.
  intros Hcb. unfold publish.
  destruct (bool_decide (topic_of ev ∈ topics)); [|reflexivity].
  destruct ev; try reflexivity.
  unfold bind, assign. fold (with_packet st packet).
  pose proof (on_receive_no_connect (with_packet st packet) Hcb) as Hno.
  destruct (_on_receive str_upper (with_packet st packet)) as [[r st'] t].
  exact Hno.
Qed.

End LinkLoss.

(** C3, as the code has it.  A constructed client listens on the receive topic
    only, and its one connection attempt is the constructor's.  A
    connection-lost message runs no code of the client: no effect, no change
    of the client; no reaction of the client to any sequence of messages
    opens a connection; packets published after the loss are handled as those
    before it; and the main loop is not ended by it, going on for as long as
    its sleeps return. *)
Theorem C3_client_never_reconnects (str_upper : pystr -> pystr) (w : World)
    (host : pystr) (cb : callback_t) (self : MeshtasticClient)
    (t : list Effect) :
  MeshtasticClient__init__ w host cb blank_MeshtasticClient = (Ok tt, self, t) ->
  (forall c x, connects (cb c x).2 = []) ->
  subscribed t = [RECEIVE_TOPIC]
  /\ connects t = [(host, MESH_PORT)]
  /\ (forall packet iface,
        let st := {| s_self := self; s_packet := packet;
                     s_interface := iface |} in
        publish str_upper (subscribed t) ConnectionLost st = (Ok tt, st, [])
        /\ (forall evs,
              s_self (publish_all str_upper (subscribed t) evs st).2 = self
              /\ Forall (fun o => connects o.2 = [])
                   (publish_all str_upper (subscribed t) evs st).1)
        /\ (forall before after,
              (publish_all str_upper (subscribed t)
                 (before ++ ConnectionLost :: after) st).1
              = (publish_all str_upper (subscribed t) before st).1
                ++ (Ok tt, [])
                   :: (publish_all str_upper (subscribed t) after st).1))
  /\ (forall fuel (l : Locals),
        (forall j, time_sleep w j = Returns tt) ->
        keep_alive w fuel 0 l = (StillRunning, l, replicate fuel Sleep)).
Proof.
  intros Hinit Hcb.
  apply mesh_init_inv in Hinit as [iface0 [-> ->]].
  split; [reflexivity|]. split; [reflexivity|]. split.
  - intros packet iface st.
    change (subscribed _) with [RECEIVE_TOPIC].
    split; [reflexivity|]. split.
    + intros evs. split.
      * apply publish_all_objects.
      * rewrite publish_all_outcomes. apply Forall_fmap, Forall_forall.
        intros ev _. unfold outcome. simpl.
        apply publish_no_connect. intros c x. apply Hcb.
    + intros before after. rewrite !publish_all_outcomes, fmap_app.
      reflexivity.
  - intros fuel l Hs. apply keep_alive_running. exact Hs.
Qed.

Lemma C3_client_never_reconnects_witness :
  publish ascii_upper [RECEIVE_TOPIC] ConnectionLost
    {| s_self := {| hostname := pystr_of "mesh.local";
                    callback := mestastic_callback;
                    interface := Some alice_directory |};
       s_packet := hello_packet; s_interface := alice_directory |}
  = (Ok tt,
     {| s_self := {| hostname := pystr_of "mesh.local";
                     callback := mestastic_callback;
                     interface := Some alice_directory |};
        s_packet := hello_packet; s_interface := alice_directory |}, []).
Proof.
  exact (proj1 (proj1 (proj2 (proj2
           (C3_client_never_reconnects ascii_upper
              (sample_world (Returns alice_directory) (Returns tt) 2)
              (pystr_of "mesh.local") mestastic_callback
              {| hostname := pystr_of "mesh.local";
                 callback := mestastic_callback;
                 interface := Some alice_directory |}
              [TcpConnect (pystr_of "mesh.local") MESH_PORT;
               Log DEBUG connected_message; Subscribe RECEIVE_TOPIC]
              eq_refl (fun _ _ => eq_refl)))) hello_packet alice_directory)).
Defined.

(** C3 fails as stated: after a successful connect, a connection-lost message
    leaves the client as it was and opens no connection; nothing retries. *)
Lemma C3_link_loss_is_ignored :
  let w := sample_world (Returns alice_directory) (Returns tt) 2 in
  let built :=
    MeshtasticClient__init__ w (pystr_of "mesh.local") quiet_callback
      blank_MeshtasticClient in
  let st := {| s_self := built.1.2; s_packet := bare_packet;
               s_interface := alice_directory |} in
  built.1.1 = Ok tt
  /\ connects built.2 = [(pystr_of "mesh.local", MESH_PORT)]
  /\ publish_all ascii_upper (subscribed built.2) [ConnectionLost] st
     = ([(Ok tt, [])], st).
Proof. vm_compute. repeat split; reflexivity. Qed.

(** * Further properties of the module *)

(** ** Tokens of [split] *)

Lemma split_aux_tokens cur s :
  Forall (fun c => isspace c = false) cur ->
  Forall (fun tok => tok <> [] /\ Forall (fun c => isspace c = false) tok)
    (split_aux cur s).
Proof.
  revert cur. induction s as [|c r IH]; intros cur Hcur; simpl.
  - destruct cur as [|c0 cur0]; [constructor|].
    constructor; [|constructor]. split.
    + simpl. intros H. apply app_eq_nil in H as [_ H]. discriminate.
    + apply Forall_rev. exact Hcur.
  - destruct (isspace c) eqn:Hc.
    + destruct cur as [|c0 cur0]; [apply IH; constructor|].
      constructor; [|apply IH; constructor]. split.
      * simpl. intros H. apply app_eq_nil in H as [_ H]. discriminate.
      * apply Forall_rev. exact Hcur.
    + apply IH. constructor; assumption.
Qed.

Lemma split_aux_nil cur s :
  split_aux cur s = [] <-> cur = [] /\ Forall (fun c => isspace c = true) s.
Proof.
  revert cur. induction s as [|c r IH]; intros cur; simpl.
  - destruct cur; split; intros H; try discriminate.
    + split; [reflexivity|constructor].
    + reflexivity.
    + destruct H as [H _]. discriminate.
  - destruct (isspace c) eqn:Hc.
    + destruct cur as [|c0 cur0].
      * rewrite IH. split; intros [_ H]; split; try reflexivity.
        -- constructor; assumption.
        -- inversion H; assumption.
      * split; [discriminate|]. intros [H _]. discriminate.
    + rewrite IH. split.
      * intros [H _]. discriminate.
      * intros [_ H]. inversion H; subst. congruence.
Qed.

Lemma split_aux_first cur s tok rest :
  split_aux cur s = tok :: rest ->
  exists pre mid post,
    s = pre ++ mid ++ post
    /\ tok = rev cur ++ mid
    /\ Forall (fun c => isspace c = true) pre
    /\ (cur <> [] -> pre = [])
    /\ Forall (fun c => isspace c = false) mid
    /\ (post = [] \/ exists c p, post = c :: p /\ isspace c = true).
Proof.
  revert cur. induction s as [|c r IH]; intros cur; simpl.
  - destruct cur as [|c0 cur0]; [discriminate|].
    intros [= <- <-]. exists [], [], []. split_and!.
    + reflexivity.
    + symmetry. apply app_nil_r.
    + constructor.
    + reflexivity.
    + constructor.
    + left. reflexivity.
  - destruct (isspace c) eqn:Hc.
    + destruct cur as [|c0 cur0].
      * intros H.
        apply IH in H as (pre & mid & post & -> & -> & Hpre & _ & Hmid & Hpost).
        exists (c :: pre), mid, post. split_and!; try assumption.
        -- reflexivity.
        -- reflexivity.
        -- constructor; assumption.
        -- intros Hne. congruence.
      * intros [= <- <-]. exists [], [], (c :: r). split_and!.
        -- reflexivity.
        -- symmetry. apply app_nil_r.
        -- constructor.
        -- reflexivity.
        -- constructor.
        -- right. eauto.
    + intros H.
      apply IH in H as (pre & mid & post & Hr & -> & Hpre & Hnil & Hmid & Hpost).
      rewrite Hnil in Hr by discriminate. simpl in Hr. subst r.
      exists [], (c :: mid), post. split_and!; try assumption.
      * reflexivity.
      * simpl. rewrite <- app_assoc. reflexivity.
      * constructor.
      * reflexivity.
      * constructor; assumption.
Qed.

(** ** What the handler dispatches and what it raises *)

Ltac pick_error := repeat (first [left; reflexivity | right]).

Section Dispatch.

Variable str_upper : pystr -> pystr.

Lemma decode_Some packet text :
  decode packet = Some text ->
  is_text_packet packet = true
  /\ exists d bs,
       decoded packet = Some d /\ payload d = Some bs
       /\ utf8_decode bs = Some text.
Proof.
  unfold decode. destruct (is_text_packet packet); [|discriminate].
  destruct (decoded packet) as [d|]; [|discriminate]. simpl.
  destruct (payload d) as [bs|] eqn:Hp; [|discriminate]. simpl.
  intros Hu. split; [reflexivity|]. exists d, bs. auto.
Qed.

(** A packet that stands for an event is dispatched. *)
Lemma on_receive_event st callsign text :
  relay_event str_upper st = Some (callsign, text) ->
  _on_receive str_upper st = dispatched st callsign text.
Proof.
  unfold relay_event.
  destruct (decode (s_packet st)) as [x|] eqn:Hdec; [|discriminate].
  apply decode_Some in Hdec as (Htext & d & bs & Hd & Hp & Hu). simpl.
  destruct (fromId (s_packet st)) as [id|] eqn:Hid; [|discriminate]. simpl.
  rewrite (on_receive_resolve str_upper st d bs x id) by assumption.
  destruct (nodes (s_interface st) !! id) as [info|]; [|discriminate]. simpl.
  destruct (user info) as [u|]; [|discriminate]. simpl.
  destruct (longName u) as [long_name|]; [|discriminate]. simpl.
  destruct (shortName u) as [short_name|]; [|discriminate]. simpl.
  destruct (split long_name) as [|tok rest]; [discriminate|]. simpl.
  intros [= <- <-]. reflexivity.
Qed.

(** A packet that stands for none does not reach the callback. *)
Lemma on_receive_no_event st :
  relay_event str_upper st = None ->
  calls (_on_receive str_upper st).2 = [].
Proof.
  unfold relay_event.
  destruct (decode (s_packet st)) as [x|] eqn:Hdec.
  2: { intros _. apply on_receive_no_text_no_call. exact Hdec. }
  apply decode_Some in Hdec as (Htext & d & bs & Hd & Hp & Hu). simpl.
  destruct (fromId (s_packet st)) as [id|] eqn:Hid.
  2: { intros _. erewrite on_receive_no_fromId by eassumption. reflexivity. }
  simpl. rewrite (on_receive_resolve str_upper st d bs x id) by assumption.
  destruct (nodes (s_interface st) !! id) as [info|]; [|reflexivity]. simpl.
  destruct (user info) as [u|]; [|reflexivity]. simpl.
  destruct (longName u) as [long_name|]; [|reflexivity]. simpl.
  destruct (shortName u) as [short_name|]; [|reflexivity]. simpl.
  destruct (split long_name) as [|tok rest]; [reflexivity|discriminate].
Qed.

Lemma on_receive_calls (st : Store) :
  (forall c x, calls (callback (s_self st) c x).2 = []) ->
  calls (_on_receive str_upper st).2
  = option_list (relay_event str_upper st).
Proof.
  intros Hcb.
  destruct (relay_event str_upper st) as [[callsign x]|] eqn:Hev.
  - rewrite (on_receive_event st callsign x) by assumption.
    unfold dispatched. specialize (Hcb callsign x).
    destruct (callback (s_self st) callsign x) as [[[]|e] t]; simpl in *.
    + rewrite Hcb. reflexivity.
    + destruct (is_UnicodeDecodeError e); simpl.
      * unfold calls in *. rewrite omap_app, Hcb. reflexivity.
      * rewrite Hcb. reflexivity.
  - apply on_receive_no_event. exact Hev.
Qed.

(** The packets that stand for an event, by their shape. *)
Lemma relay_event_Some st callsign text :
  relay_event str_upper st = Some (callsign, text)
  <-> exists d bs id info u long_name short_name tok rest,
        decoded (s_packet st) = Some d
        /\ portnum d = Some TEXT_MESSAGE_APP
        /\ payload d = Some bs
        /\ utf8_decode bs = Some text
        /\ fromId (s_packet st) = Some id
        /\ nodes (s_interface st) !! id = Some info
        /\ user info = Some u
        /\ longName u = Some long_name
        /\ shortName u = Some short_name
        /\ split long_name = tok :: rest
        /\ callsign = str_upper tok.
Proof.
  unfold relay_event. split.
  - destruct (decode (s_packet st)) as [x|] eqn:Hdec; [|discriminate].
    apply decode_Some in Hdec as (Htext & d & bs & Hd & Hp & Hu). simpl.
    apply is_text_packet_tag in Htext as (d' & Hd' & Hpn).
    assert (d' = d) by congruence. subst d'.
    destruct (fromId (s_packet st)) as [id|]; [|discriminate]. simpl.
    destruct (nodes (s_interface st) !! id) as [info|] eqn:Hn; [|discriminate].
    simpl.
    destruct (user info) as [u|] eqn:Huser; [|discriminate]. simpl.
    destruct (longName u) as [long_name|] eqn:Hln; [|discriminate]. simpl.
    destruct (shortName u) as [short_name|] eqn:Hsn; [|discriminate]. simpl.
    destruct (split long_name) as [|tok rest] eqn:Hs; [discriminate|]. simpl.
    intros [= <- <-].
    exists d, bs, id, info, u, long_name, short_name, tok, rest.
    split_and!; auto.
  - intros (d & bs & id & info & u & long_name & short_name & tok & rest
            & Hd & Hpn & Hp & Hu & Hf & Hn & Huser & Hln & Hsn & Hs & ->).
    unfold decode.
    replace (is_text_packet (s_packet st)) with true
      by (symmetry; apply is_text_packet_tag; eauto).
    rewrite Hd. simpl. rewrite Hp. simpl. rewrite Hu. simpl.
    rewrite Hf. simpl. rewrite Hn. simpl. rewrite Huser. simpl.
    rewrite Hln. simpl. rewrite Hsn. simpl. rewrite Hs. reflexivity.
Qed.

(** X1.  The handler calls the callback exactly for the event the packet
    stands for, and at most once (the callback itself calling no callback).
    A packet stands for an event exactly when it carries the text-message
    tag, a UTF-8 payload and a sender id, and the directory holds under that
    id a user record with a long name that has a token and with a short
    name; the event is the upper-cased first token and the decoded text.
    Every other packet reaches no callback. *)
Theorem X1_dispatch_is_the_event_at_most_once (st : Store) :
  (forall c x, calls (callback (s_self st) c x).2 = []) ->
  calls (_on_receive str_upper st).2
  = option_list (relay_event str_upper st)
  /\ forall callsign text,
       relay_event str_upper st = Some (callsign, text)
       <-> exists d bs id info u long_name short_name tok rest,
             decoded (s_packet st) = Some d
             /\ portnum d = Some TEXT_MESSAGE_APP
             /\ payload d = Some bs
             /\ utf8_decode bs = Some text
             /\ fromId (s_packet st) = Some id
             /\ nodes (s_interface st) !! id = Some info
             /\ user info = Some u
             /\ longName u = Some long_name
             /\ shortName u = Some short_name
             /\ split long_name = tok :: rest
             /\ callsign = str_upper tok.
Proof.
  intros Hcb. split; [apply on_receive_calls; exact Hcb|].
  intros callsign text. apply relay_event_Some.
Qed.

(** X2.  The handler always ends, and what it raises is never a
    UnicodeDecodeError: it raises for text-message packets only, and then
    either one of its own six errors (a missing payload, sender id, user
    record, long name or short name, or an empty list of tokens) or an error
    the callback raised. *)
Theorem X2_what_the_handler_raises (st : Store) :
  (_on_receive str_upper st).1.1 <> StillRunning
  /\ forall e,
       (_on_receive str_upper st).1.1 = Raise e ->
       is_text_packet (s_packet st) = true
       /\ is_UnicodeDecodeError e = false
       /\ (e = missing "payload"
           \/ e = missing "fromId"
           \/ e = missing "user"
           \/ e = missing "longName"
           \/ e = missing "shortName"
           \/ e = Exn IndexError (pystr_of "list index out of range")
           \/ exists c x t, callback (s_self st) c x = (Raises e, t)).
Proof.
  destruct (is_text_packet (s_packet st)) eqn:Htext.
  2: { rewrite on_receive_not_text by assumption.
       split; [discriminate|]. intros e [=]. }
  destruct (decoded (s_packet st)) as [d|] eqn:Hd.
  2: { unfold is_text_packet in Htext. rewrite Hd in Htext. discriminate. }
  destruct (payload d) as [bs|] eqn:Hp.
  2: { erewrite on_receive_no_payload by eassumption.
       split; [discriminate|]. intros e [= <-].
       split_and!; [reflexivity|reflexivity|]. pick_error. }
  destruct (utf8_decode bs) as [text|] eqn:Hu.
  2: { erewrite on_receive_not_utf8 by eassumption.
       split; [discriminate|]. intros e [=]. }
  destruct (fromId (s_packet st)) as [id|] eqn:Hf.
  2: { erewrite on_receive_no_fromId by eassumption.
       split; [discriminate|]. intros e [= <-].
       split_and!; [reflexivity|reflexivity|]. pick_error. }
  erewrite on_receive_resolve by eassumption.
  destruct (nodes (s_interface st) !! id) as [info|].
  2: { split; [discriminate|]. intros e [= <-].
       split_and!; [reflexivity|reflexivity|]. pick_error. }
  destruct (user info) as [u|].
  2: { split; [discriminate|]. intros e [= <-].
       split_and!; [reflexivity|reflexivity|]. pick_error. }
  destruct (longName u) as [long_name|].
  2: { split; [discriminate|]. intros e [= <-].
       split_and!; [reflexivity|reflexivity|]. pick_error. }
  destruct (shortName u) as [short_name|].
  2: { split; [discriminate|]. intros e [= <-].
       split_and!; [reflexivity|reflexivity|]. pick_error. }
  destruct (split long_name) as [|tok rest].
  1: { split; [discriminate|]. intros e [= <-].
       split_and!; [reflexivity|reflexivity|]. pick_error. }
  unfold dispatched.
  destruct (callback (s_self st) (str_upper tok) text) as [[[]|e0] t] eqn:Hcb.
  - split; [discriminate|]. intros e [=].
  - destruct (is_UnicodeDecodeError e0) eqn:He0.
    + split; [discriminate|]. intros e [=].
    + split; [discriminate|]. intros e [= <-].
      split; [reflexivity|]. split; [exact He0|]. do 6 right. eauto.
Qed.

(** X3.  A callsign handed to the callback is the upper-cased first token of
    the sender's long name: the long name is some whitespace, then the token,
    which is not empty and holds no whitespace, then nothing or whitespace
    and the rest; and the text handed over is the decoded payload. *)
Theorem X3_callsign_is_the_first_token (st : Store) (callsign text : pystr) :
  (forall c x, calls (callback (s_self st) c x).2 = []) ->
  calls (_on_receive str_upper st).2 = [(callsign, text)] ->
  decode (s_packet st) = Some text
  /\ exists id info u pre tok post,
       fromId (s_packet st) = Some id
       /\ nodes (s_interface st) !! id = Some info
       /\ user info = Some u
       /\ longName u = Some (pre ++ tok ++ post)
       /\ is_Some (shortName u)
       /\ callsign = str_upper tok
       /\ tok <> []
       /\ Forall (fun c => isspace c = true) pre
       /\ Forall (fun c => isspace c = false) tok
       /\ (post = [] \/ exists c p, post = c :: p /\ isspace c = true).
Proof.
  intros Hcb Hcalls. rewrite on_receive_calls in Hcalls by assumption.
  unfold relay_event in Hcalls.
  destruct (decode (s_packet st)) as [x|]; [|discriminate]. simpl in Hcalls.
  destruct (fromId (s_packet st)) as [id|]; [|discriminate]. simpl in Hcalls.
  destruct (nodes (s_interface st) !! id) as [info|] eqn:Hn; [|discriminate].
  simpl in Hcalls.
  destruct (user info) as [u|] eqn:Hu; [|discriminate]. simpl in Hcalls.
  destruct (longName u) as [long_name|] eqn:Hln; [|discriminate].
  simpl in Hcalls.
  destruct (shortName u) as [short_name|] eqn:Hsn; [|discriminate].
  simpl in Hcalls.
  destruct (split long_name) as [|tok0 rest] eqn:Hs; [discriminate|].
  simpl in Hcalls. injection Hcalls as <- <-.
  split; [reflexivity|].
  pose proof (split_aux_tokens [] long_name (Forall_nil_2 _)) as Htoks.
  fold (split long_name) in Htoks. rewrite Hs in Htoks.
  apply Forall_cons in Htoks as [[Hne Hns] _].
  apply split_aux_first in Hs
    as (pre & mid & post & Hlong & Htok & Hpre & _ & Hmid & Hpost).
  simpl in Htok. subst tok0 long_name.
  exists id, info, u, pre, mid, post. split_and!; eauto.
Qed.

(** X4.  A sender that is in the directory with both names, under a long
    name that is empty or all whitespace, fares like an unknown one: the
    handler raises IndexError and the callback is not called. *)
Theorem X4_blank_long_name_raises (st : Store) (d : Decoded) (bs : pybytes)
    (text id : pystr) (info : NodeInfo) (u : User)
    (long_name short_name : pystr) :
  is_text_packet (s_packet st) = true ->
  decoded (s_packet st) = Some d ->
  payload d = Some bs ->
  utf8_decode bs = Some text ->
  fromId (s_packet st) = Some id ->
  nodes (s_interface st) !! id = Some info ->
  user info = Some u ->
  longName u = Some long_name ->
  shortName u = Some short_name ->
  Forall (fun c => isspace c = true) long_name ->
  _on_receive str_upper st
  = (Raise (Exn IndexError (pystr_of "list index out of range")), st, []).
Proof.
  intros H Hd Hp Hu Hf Hn Huser Hln Hsn Hblank.
  erewrite on_receive_resolve by eassumption. rewrite Hn, Huser, Hln, Hsn.
  replace (split long_name) with (@nil pystr); [reflexivity|].
  symmetry. apply split_aux_nil. split; [reflexivity|exact Hblank].
Qed.

End Dispatch.

Lemma X1_dispatch_is_the_event_at_most_once_witness :
  calls (_on_receive ascii_upper
           (sample_store quiet_callback hello_packet alice_directory)).2
  = option_list
      (relay_event ascii_upper
         (sample_store quiet_callback hello_packet alice_directory)).
Proof.
  refine (proj1 (X1_dispatch_is_the_event_at_most_once ascii_upper
                   (sample_store quiet_callback hello_packet alice_directory)
                   _)).
  intros c x. reflexivity.
Defined.

Lemma X2_what_the_handler_raises_witness :
  is_text_packet no_payload_packet = true
  /\ is_UnicodeDecodeError (missing "payload") = false
  /\ (missing "payload" = missing "payload"
      \/ missing "payload" = missing "fromId"
      \/ missing "payload" = missing "user"
      \/ missing "payload" = missing "longName"
      \/ missing "payload" = missing "shortName"
      \/ missing "payload"
         = Exn IndexError (pystr_of "list index out of range")
      \/ exists c x t, quiet_callback c x = (Raises (missing "payload"), t)).
Proof.
  apply (proj2 (X2_what_the_handler_raises ascii_upper
                  (sample_store quiet_callback no_payload_packet
                     alice_directory))
           (missing "payload")).
  reflexivity.
Defined.

Lemma X3_callsign_is_the_first_token_witness :
  decode hello_packet = Some (pystr_of "Hello")
  /\ exists id info u pre tok post,
       fromId hello_packet = Some id
       /\ nodes alice_directory !! id = Some info
       /\ user info = Some u
       /\ longName u = Some (pre ++ tok ++ post)
       /\ is_Some (shortName u)
       /\ pystr_of "ALICE" = ascii_upper tok
       /\ tok <> []
       /\ Forall (fun c => isspace c = true) pre
       /\ Forall (fun c => isspace c = false) tok
       /\ (post = [] \/ exists c p, post = c :: p /\ isspace c = true).
Proof.
  apply (X3_callsign_is_the_first_token ascii_upper
           (sample_store quiet_callback hello_packet alice_directory)
           (pystr_of "ALICE") (pystr_of "Hello")).
  - intros c x. reflexivity.
  - vm_compute. reflexivity.
Defined.

Lemma X4_blank_long_name_raises_witness :
  _on_receive ascii_upper
    (sample_store quiet_callback hello_packet blank_directory)
  = (Raise (Exn IndexError (pystr_of "list index out of range")),
     sample_store quiet_callback hello_packet blank_directory, []).
Proof.
  apply (X4_blank_long_name_raises ascii_upper
           (sample_store quiet_callback hello_packet blank_directory)
           {| portnum := Some TEXT_MESSAGE_APP;
              payload := Some (bytes_of "Hello") |}
           (bytes_of "Hello") (pystr_of "Hello") (pystr_of "!abc123")
           {| user := Some (named "!abc123" "  " "AE") |}
           (named "!abc123" "  " "AE") (pystr_of "  ") (pystr_of "AE"));
    try (vm_compute; reflexivity).
  repeat constructor.
Defined.

(** ** The long-name lookup *)

Lemma long_name_loop_passed {S} before rest node_id (st : S) :
  Forall (passed node_id) before ->
  long_name_loop (before ++ rest) node_id st = long_name_loop rest node_id st.
Proof.
  induction 1 as [|[k nd] before Hp _ IH]; [reflexivity|]. simpl.
  destruct Hp as [Hu|(u & i & Hu & Hi & Hne)]; simpl in Hu; rewrite Hu.
  - exact IH.
  - unfold bind, subscript. rewrite Hi. simpl.
    rewrite decide_False by exact Hne.
    destruct (long_name_loop (before ++ rest) node_id st) as [[r st'] t] eqn:E.
    rewrite <- IH. reflexivity.
Qed.

Lemma long_name_loop_none {S} items node_id (st : S) :
  Forall (passed node_id) items ->
  long_name_loop items node_id st = (Ok None, st, []).
Proof.
  intros H. rewrite <- (app_nil_r items).
  rewrite long_name_loop_passed by assumption. reflexivity.
Qed.

Lemma long_name_loop_match {S} k nd rest node_id u (st : S) :
  user nd = Some u -> user_id u = Some node_id ->
  long_name_loop ((k, nd) :: rest) node_id st
  = match longName u with
    | Some long_name => (Ok (Some long_name), st, [])
    | None => (Raise (missing "longName"), st, [])
    end.
Proof.
  intros Hu Hi. simpl. rewrite Hu. unfold bind, subscript. rewrite Hi. simpl.
  rewrite decide_True by reflexivity. destruct (longName u); reflexivity.
Qed.

Lemma long_name_loop_no_id {S} k nd rest node_id u (st : S) :
  user nd = Some u -> user_id u = None ->
  long_name_loop ((k, nd) :: rest) node_id st = (Raise (missing "id"), st, []).
Proof.
  intros Hu Hi. simpl. rewrite Hu. unfold bind, subscript. rewrite Hi.
  reflexivity.
Qed.

(** Every way the loop can end. *)
Lemma long_name_loop_ends {S} items node_id (st : S) :
  exists r,
    long_name_loop items node_id st = (r, st, [])
    /\ (r = Ok None
        \/ (exists k nd u long_name,
              r = Ok (Some long_name) /\ (k, nd) ∈ items /\ user nd = Some u
              /\ user_id u = Some node_id /\ longName u = Some long_name)
        \/ r = Raise (missing "id")
        \/ r = Raise (missing "longName")).
Proof.
  induction items as [|[k nd] rest IH]; simpl.
  - exists (Ok None). split; [reflexivity|]. left. reflexivity.
  - destruct (user nd) as [u|] eqn:Hu.
    + unfold bind, subscript.
      destruct (user_id u) as [i|] eqn:Hi; simpl.
      * destruct (decide (i = node_id)) as [->|Hne].
        -- destruct (longName u) as [long_name|] eqn:Hl; simpl.
           ++ exists (Ok (Some long_name)). split; [reflexivity|].
              right. left. exists k, nd, u, long_name.
              split_and!; auto. left.
           ++ exists (Raise (missing "longName")). split; [reflexivity|].
              do 3 right. reflexivity.
        -- destruct IH as (r & Hr & Hcases). rewrite Hr.
           exists r. split; [destruct r; reflexivity|].
           destruct Hcases as [H|[(k' & nd' & u' & l' & H1 & H2 & H3)|H]];
             [left; exact H| |right; right; exact H].
           right. left. exists k', nd', u', l'.
           split; [exact H1|]. split; [right; exact H2|exact H3].
      * exists (Raise (missing "id")). split; [reflexivity|].
        right. right. left. reflexivity.
    + destruct IH as (r & Hr & Hcases). exists r. split; [exact Hr|].
      destruct Hcases as [H|[(k' & nd' & u' & l' & H1 & H2 & H3)|H]];
        [left; exact H| |right; right; exact H].
      right. left. exists k', nd', u', l'.
      split; [exact H1|]. split; [right; exact H2|exact H3].
Qed.

Lemma get_long_name_connected dev node_id iface :
  dev_TCPInterface dev HOSTNAME = Returns iface ->
  _get_long_name_from_id dev node_id None
  = (let search :=
       (long_name_loop (default [] (lookup_nodes iface)) node_id
          (Some iface)).1.1 in
     (match dev_close dev with
      | Returns _ => Ok (answered search).1
      | Raises e => Raise e
      end, Some iface, (answered search).2 ++ [InterfaceClose])).
Proof.
  intros Hc. unfold _get_long_name_from_id. py_unfold. rewrite Hc.
  destruct (lookup_nodes iface) as [[|item items]|]; simpl default.
  - simpl. destruct (dev_close dev) as [[]|e]; reflexivity.
  - destruct (long_name_loop_ends (item :: items) node_id (Some iface))
      as (r & Hr & Hcases).
    cbv zeta. rewrite Hr.
    destruct Hcases as [->|[(k & nd & u & l & -> & _)|[->| ->]]]; simpl;
      destruct (dev_close dev) as [[]|e]; reflexivity.
  - simpl. destruct (dev_close dev) as [[]|e]; reflexivity.
Qed.

(** X5.  The lookup closes the interface it opened, once, on every path, and
    closes nothing when the connection was not made. *)
Theorem X5_lookup_closes_what_it_opened (dev : Device) (node_id : pystr) :
  closes (_get_long_name_from_id dev node_id None).2
  = match dev_TCPInterface dev HOSTNAME with
    | Returns _ => [InterfaceClose]
    | Raises _ => []
    end.
Proof.
  destruct (dev_TCPInterface dev HOSTNAME) as [iface|e] eqn:Hc.
  - rewrite (get_long_name_connected dev node_id iface) by assumption.
    cbv zeta. simpl.
    destruct ((long_name_loop (default [] (lookup_nodes iface)) node_id
                 (Some iface)).1.1); reflexivity.
  - unfold _get_long_name_from_id. py_unfold. rewrite Hc.
    destruct (is_Exception e); reflexivity.
Qed.

(** X6.  Once connected, the lookup finds the first node whose user id is the
    one asked for, the nodes before it having no user record or a user record
    with another id: it closes the interface and answers with that node's
    long name.  It answers with a name only if a node with that id and that
    long name is there, and with None, printing nothing, when every node is
    passed over or the nodes are None or empty.  An exception of the close
    takes the place of the answer. *)
Theorem X6_lookup_finds_the_node (dev : Device) (node_id : pystr)
    (iface : LookupInterface) :
  dev_TCPInterface dev HOSTNAME = Returns iface ->
  (forall before k nd after u long_name,
     lookup_nodes iface = Some (before ++ (k, nd) :: after) ->
     Forall (passed node_id) before ->
     user nd = Some u -> user_id u = Some node_id ->
     longName u = Some long_name ->
     _get_long_name_from_id dev node_id None
     = (match dev_close dev with
        | Returns _ => Ok (Some long_name)
        | Raises e => Raise e
        end, Some iface, [InterfaceClose]))
  /\ (forall long_name,
        (_get_long_name_from_id dev node_id None).1.1 = Ok (Some long_name) ->
        exists items k nd u,
          lookup_nodes iface = Some items /\ (k, nd) ∈ items
          /\ user nd = Some u /\ user_id u = Some node_id
          /\ longName u = Some long_name)
  /\ (Forall (passed node_id) (default [] (lookup_nodes iface)) ->
      _get_long_name_from_id dev node_id None
      = (match dev_close dev with
         | Returns _ => Ok None
         | Raises e => Raise e
         end, Some iface, [InterfaceClose])).
Proof.
  intros Hc.
  rewrite (get_long_name_connected dev node_id iface) by assumption.
  cbv zeta. split_and!.
  - intros before k nd after u long_name Hitems Hbefore Hu Hi Hl.
    rewrite Hitems. simpl default.
    rewrite long_name_loop_passed by assumption.
    rewrite (long_name_loop_match k nd after node_id u) by assumption.
    rewrite Hl. reflexivity.
  - intros long_name.
    destruct (long_name_loop_ends (default [] (lookup_nodes iface)) node_id
                (Some iface)) as (r & Hr & Hcases).
    rewrite Hr. simpl.
    destruct Hcases as [->|[(k & nd & u & l & -> & Hin & H)|[->| ->]]];
      simpl; destruct (dev_close dev) as [[]|e0]; try discriminate.
    intros [= <-].
    destruct (lookup_nodes iface) as [items|]; [|inversion Hin].
    exists items, k, nd, u. split; [reflexivity|]. split; [exact Hin|exact H].
  - intros Hall. rewrite long_name_loop_none by assumption. reflexivity.
Qed.

Lemma X6_lookup_finds_the_node_witness :
  _get_long_name_from_id
    (sample_device
       (Some [(pystr_of "!000001", {| user := None |});
              (pystr_of "!abc123", alice_node);
              (pystr_of "!ffffff", anonymous_node)]))
    (pystr_of "!abc123") None
  = (Ok (Some (pystr_of "Alice Example")),
     Some {| lookup_nodes :=
               Some [(pystr_of "!000001", {| user := None |});
                     (pystr_of "!abc123", alice_node);
                     (pystr_of "!ffffff", anonymous_node)] |},
     [InterfaceClose]).
Proof.
  refine (proj1 (X6_lookup_finds_the_node
                   (sample_device
                      (Some [(pystr_of "!000001", {| user := None |});
                             (pystr_of "!abc123", alice_node);
                             (pystr_of "!ffffff", anonymous_node)]))
                   (pystr_of "!abc123")
                   {| lookup_nodes :=
                        Some [(pystr_of "!000001", {| user := None |});
                              (pystr_of "!abc123", alice_node);
                              (pystr_of "!ffffff", anonymous_node)] |}
                   eq_refl)
            [(pystr_of "!000001", {| user := None |})]
            (pystr_of "!abc123") alice_node
            [(pystr_of "!ffffff", anonymous_node)]
            (named "!abc123" "Alice Example" "AE") (pystr_of "Alice Example")
            eq_refl _ eq_refl eq_refl eq_refl).
  constructor; [left; reflexivity|constructor].
Defined.

(** X7.  The lookup raises nothing of its own.  A connection that fails with
    an Exception is printed and answered with None, nothing being closed.  A
    user record without an id, or one with the id asked for and no long name,
    met before any match, is printed as a KeyError and answered with None
    once the interface is closed, whatever nodes follow.  What leaves the
    lookup is an exception of the close, which replaces the answer, or an
    interrupt or exit raised by the connection. *)
Theorem X7_lookup_swallows_failures (dev : Device) (node_id : pystr) :
  (forall e,
     dev_TCPInterface dev HOSTNAME = Raises e -> is_Exception e = true ->
     _get_long_name_from_id dev node_id None
     = (Ok None, None, [Print (lookup_error_message e)]))
  /\ (forall iface before k nd after u key,
        dev_TCPInterface dev HOSTNAME = Returns iface ->
        lookup_nodes iface = Some (before ++ (k, nd) :: after) ->
        Forall (passed node_id) before ->
        user nd = Some u ->
        (user_id u = None /\ key = "id"%string)
        \/ (user_id u = Some node_id /\ longName u = None
            /\ key = "longName"%string) ->
        _get_long_name_from_id dev node_id None
        = (match dev_close dev with
           | Returns _ => Ok None
           | Raises e => Raise e
           end, Some iface,
           [Print (lookup_error_message (missing key)); InterfaceClose]))
  /\ (forall iface e,
        dev_TCPInterface dev HOSTNAME = Returns iface ->
        dev_close dev = Raises e ->
        (_get_long_name_from_id dev node_id None).1.1 = Raise e)
  /\ (forall e,
        (_get_long_name_from_id dev node_id None).1.1 = Raise e ->
        (exists iface, dev_TCPInterface dev HOSTNAME = Returns iface
                       /\ dev_close dev = Raises e)
        \/ (dev_TCPInterface dev HOSTNAME = Raises e
            /\ is_Exception e = false)).
Proof.
  split_and!.
  - intros e Hc He. unfold _get_long_name_from_id. py_unfold.
    rewrite Hc, He. reflexivity.
  - intros iface before k nd after u key Hc Hitems Hbefore Hu Hkey.
    rewrite (get_long_name_connected dev node_id iface) by assumption.
    cbv zeta. rewrite Hitems. simpl default.
    rewrite long_name_loop_passed by assumption.
    destruct Hkey as [[Hi ->]|(Hi & Hl & ->)].
    + rewrite (long_name_loop_no_id k nd after node_id u) by assumption.
      reflexivity.
    + rewrite (long_name_loop_match k nd after node_id u) by assumption.
      rewrite Hl. reflexivity.
  - intros iface e Hc Hclose.
    rewrite (get_long_name_connected dev node_id iface) by assumption.
    rewrite Hclose. reflexivity.
  - intros e.
    destruct (dev_TCPInterface dev HOSTNAME) as [iface|e0] eqn:Hc.
    + rewrite (get_long_name_connected dev node_id iface) by assumption.
      simpl. destruct (dev_close dev) as [[]|e1]; intros [=]. subst. eauto.
    + unfold _get_long_name_from_id. py_unfold. rewrite Hc.
      destruct (is_Exception e0) eqn:He0; simpl; intros [=]. subst. auto.
Qed.

Lemma X7_lookup_swallows_failures_witness :
  _get_long_name_from_id
    (sample_device
       (Some [(pystr_of "!ffffff", anonymous_node);
              (pystr_of "!abc123", alice_node)]))
    (pystr_of "!abc123") None
  = (Ok None,
     Some {| lookup_nodes :=
               Some [(pystr_of "!ffffff", anonymous_node);
                     (pystr_of "!abc123", alice_node)] |},
     [Print (lookup_error_message (missing "id")); InterfaceClose]).
Proof.
  refine (proj1 (proj2 (X7_lookup_swallows_failures
                          (sample_device
                             (Some [(pystr_of "!ffffff", anonymous_node);
                                    (pystr_of "!abc123", alice_node)]))
                          (pystr_of "!abc123")))
            {| lookup_nodes :=
                 Some [(pystr_of "!ffffff", anonymous_node);
                       (pystr_of "!abc123", alice_node)] |}
            [] (pystr_of "!ffffff") anonymous_node
            [(pystr_of "!abc123", alice_node)]
            {| user_id := None; longName := Some (pystr_of "Nobody");
               shortName := Some (pystr_of "NB") |}
            "id"%string eq_refl eq_refl _ eq_refl _).
  - constructor.
  - left. split; reflexivity.
Defined.

(** ** Every run of [main] *)

Lemma closes_app (t1 t2 : list Effect) :
  closes (t1 ++ t2) = closes t1 ++ closes t2.
Proof. unfold closes. apply omap_app. Qed.

Lemma keep_alive_facts {S} w fuel k (st : S) :
  exists r t,
    keep_alive w fuel k st = (r, st, t)
    /\ r <> Ok tt
    /\ closes t = []
    /\ (forall e, r = Raise e -> exists j, time_sleep w j = Raises e)
    /\ Forall (fun ef => ef = Sleep) t.
Proof.
  revert k. induction fuel as [|fuel IH]; intros k; simpl.
  - exists StillRunning, []. split_and!; try reflexivity; try discriminate.
    constructor.
  - py_unfold. destruct (time_sleep w k) as [[]|e] eqn:Hs.
    + destruct (IH (Datatypes.S k)) as (r & t & -> & Hr & Hc & He & Hall).
      exists r, (Sleep :: t). split_and!; try assumption.
      * destruct r; reflexivity.
      * constructor; [reflexivity|assumption].
    + exists (Raise e), [Sleep]. split_and!; try reflexivity; try discriminate.
      * intros e' [= <-]. eauto.
      * repeat constructor.
Qed.

Ltac main_unfold :=
  unfold main, guarded, main_try, main_finally, MeshtasticClient__init__,
    MattermostClient__init__, MeshtasticClient_close, MattermostClient_close;
  py_unfold; simpl.

(** X8.  Whenever [main] ends, by returning or by an exception, it has closed
    the mesh connection exactly when it holds a mesh client, and then the chat
    driver exactly when it holds a chat client and the first close returned;
    it closes nothing else, and nothing while it is still running. *)
Theorem X8_main_closes_what_it_holds (w : World) (fuel : nat) :
  closes (main w fuel no_locals).2
  = match (main w fuel no_locals).1.1 with
    | StillRunning => []
    | _ =>
      match meshtastic_client (main w fuel no_locals).1.2 with
      | None => []
      | Some _ =>
        InterfaceClose
        :: match mattermost_client (main w fuel no_locals).1.2,
                 interface_close w with
           | Some _, Returns _ => [DriverClose]
           | _, _ => []
           end
      end
    end.
Proof.
  main_unfold.
  destruct (load_config w) as [config|e]; simpl.
  2: { destruct (is_Exception e); reflexivity. }
  destruct (basicConfig w (log_level config)) as [[]|e]; simpl; [|reflexivity].
  destruct (TCPInterface w (meshtastic_host config) MESH_PORT) as [iface|e];
    simpl.
  2: { destruct (is_Exception e) eqn:He; simpl;
       destruct (is_KeyboardInterrupt e); reflexivity. }
  destruct (pub_subscribe w RECEIVE_TOPIC) as [[]|e]; simpl.
  2: { destruct (is_Exception e) eqn:He; simpl;
       destruct (is_KeyboardInterrupt e); reflexivity. }
  destruct (py_int w (default (JInt 80) (cfg_port (mattermost_config config))))
    as [port|e]; simpl.
  2: { destruct (is_KeyboardInterrupt e); simpl;
       destruct (interface_close w) as [[]|e']; reflexivity. }
  destruct (Driver w _) as [[]|e]; simpl.
  2: { destruct (is_Exception e) eqn:He; simpl;
       destruct (is_KeyboardInterrupt e); simpl;
       destruct (interface_close w) as [[]|e']; reflexivity. }
  match goal with
  | |- context [keep_alive w fuel 0 ?st] =>
    destruct (keep_alive_facts w fuel 0 st) as (r & t & -> & Hr & Hc & _ & _)
  end.
  destruct r as [[]|e|]; simpl; [congruence| |].
  - destruct (is_KeyboardInterrupt e); simpl;
      destruct (interface_close w) as [[]|e']; simpl;
      try destruct (driver_close w) as [[]|e'']; simpl;
      unfold closes in *; simpl; rewrite ?omap_app, ?Hc; reflexivity.
  - unfold closes in *; simpl. exact Hc.
Qed.

Ltac find_effect :=
  first
    [ apply elem_of_cons; left; reflexivity
    | apply elem_of_cons; right; find_effect
    | apply elem_of_app; left; find_effect
    | apply elem_of_app; right; find_effect ].

Lemma py_int_raises w v e :
  py_int w v = Raises e -> is_KeyboardInterrupt e = false.
Proof.
  unfold py_int. destruct v as [z|s|b|[z| |]| | |]; try discriminate;
    try (intros [= <-]; reflexivity).
  destruct (int_of_str w s); [discriminate|]. intros [= <-]. reflexivity.
Qed.

(** X9.  [main] returns normally in two ways only: the configuration could
    not be loaded, which it prints, or a KeyboardInterrupt raised by one of
    its collaborators (the mesh connection, the subscription, the chat driver
    or a sleep of the loop) was caught, which it logs. *)
Theorem X9_main_returns_only_on_bad_config_or_interrupt (w : World)
    (fuel : nat) :
  (main w fuel no_locals).1.1 = Ok tt ->
  (exists e,
     load_config w = Raises e /\ is_Exception e = true
     /\ (main w fuel no_locals).2 = [Print (config_error_message w e)])
  \/ (exists e,
        is_KeyboardInterrupt e = true
        /\ Log INFO exiting_message ∈ (main w fuel no_locals).2
        /\ ((exists host port, TCPInterface w host port = Raises e)
            \/ (exists topic, pub_subscribe w topic = Raises e)
            \/ (exists options, Driver w options = Raises e)
            \/ (exists j, time_sleep w j = Raises e))).
Proof.
  main_unfold.
  destruct (load_config w) as [config|e] eqn:Hload; simpl.
  2: { destruct (is_Exception e) eqn:He; simpl; [|discriminate].
       intros _. left. eauto. }
  destruct (basicConfig w (log_level config)) as [[]|e]; simpl; [|discriminate].
  destruct (TCPInterface w (meshtastic_host config) MESH_PORT) as [iface|e]
    eqn:Htcp; simpl.
  2: { destruct (is_Exception e) eqn:He; simpl;
       destruct (is_KeyboardInterrupt e) eqn:Hki; simpl; try discriminate.
       - intros _. right. exists e. split_and!; [done|find_effect|eauto].
       - intros _. right. exists e. split_and!; [done|find_effect|eauto]. }
  destruct (pub_subscribe w RECEIVE_TOPIC) as [[]|e] eqn:Hsub; simpl.
  2: { destruct (is_Exception e) eqn:He; simpl;
       destruct (is_KeyboardInterrupt e) eqn:Hki; simpl; try discriminate.
       - intros _. right. exists e. split_and!; [done|find_effect|eauto 6].
       - intros _. right. exists e. split_and!; [done|find_effect|eauto 6]. }
  destruct (py_int w (default (JInt 80) (cfg_port (mattermost_config config))))
    as [port|e] eqn:Hport; simpl.
  2: { apply py_int_raises in Hport. rewrite Hport. simpl.
       destruct (interface_close w) as [[]|e']; discriminate. }
  destruct (Driver w _) as [[]|e] eqn:Hdrv; simpl.
  2: { destruct (is_Exception e) eqn:He; simpl;
       destruct (is_KeyboardInterrupt e) eqn:Hki; simpl;
       destruct (interface_close w) as [[]|e']; simpl; try discriminate;
       intros _; right; exists e; (split_and!; [done|find_effect|eauto 7]). }
  match goal with
  | |- context [keep_alive w fuel 0 ?st] =>
    destruct (keep_alive_facts w fuel 0 st) as (r & t & -> & Hr & _ & Hs & _)
  end.
  destruct r as [[]|e|]; simpl; [congruence| |discriminate].
  destruct (Hs e eq_refl) as [j Hj].
  destruct (is_KeyboardInterrupt e) eqn:Hki; simpl;
    destruct (interface_close w) as [[]|e']; simpl; try discriminate;
    destruct (driver_close w) as [[]|e'']; simpl; try discriminate.
  intros _. right. exists e. split_and!; [done|find_effect|eauto 7].
Qed.

Lemma X9_main_returns_only_on_bad_config_or_interrupt_witness :
  let w := sample_world (Returns alice_directory) (Returns tt) 2 in
  (exists e,
     load_config w = Raises e /\ is_Exception e = true
     /\ (main w 5 no_locals).2 = [Print (config_error_message w e)])
  \/ (exists e,
        is_KeyboardInterrupt e = true
        /\ Log INFO exiting_message ∈ (main w 5 no_locals).2
        /\ ((exists host port, TCPInterface w host port = Raises e)
            \/ (exists topic, pub_subscribe w topic = Raises e)
            \/ (exists options, Driver w options = Raises e)
            \/ (exists j, time_sleep w j = Raises e))).
Proof.
  apply (X9_main_returns_only_on_bad_config_or_interrupt
           (sample_world (Returns alice_directory) (Returns tt) 2) 5).
  vm_compute. reflexivity.
Defined.

(** X10.  A mesh connection that was opened is lost when the subscription
    that follows it fails: the constructor logs the failure as a connection
    error and raises it with the interface already in place, [main] never
    gets hold of the client, and so ends with that exception without closing
    the interface. *)
Theorem X10_failed_subscription_leaks_the_interface (w : World)
    (config : Config) (fuel : nat) (iface : Interface) (e : exn) :
  load_config w = Returns config ->
  basicConfig w (log_level config) = Returns tt ->
  TCPInterface w (meshtastic_host config) MESH_PORT = Returns iface ->
  pub_subscribe w RECEIVE_TOPIC = Raises e ->
  is_Exception e = true ->
  MeshtasticClient__init__ w (meshtastic_host config) mestastic_callback
    blank_MeshtasticClient
  = (Raise e, mesh_client config iface,
     mesh_startup config ++ [Log ERROR (connect_error_message e)])
  /\ main w fuel no_locals
     = (Raise e, no_locals,
        Log INFO logging_active_message
        :: mesh_startup config ++ [Log ERROR (connect_error_message e)])
  /\ closes (main w fuel no_locals).2 = [].
Proof.
  intros Hload Hb Htcp Hsub He.
  assert (Hki : is_KeyboardInterrupt e = false).
  { unfold is_Exception, is_KeyboardInterrupt in *.
    destruct (exn_cls e); congruence. }
  assert (Hmain : main w fuel no_locals
     = (Raise e, no_locals,
        Log INFO logging_active_message
        :: mesh_startup config ++ [Log ERROR (connect_error_message e)])).
  { main_unfold. rewrite Hload. simpl. rewrite Hb. simpl. rewrite Htcp. simpl.
    rewrite Hsub. simpl. rewrite He. simpl. rewrite Hki. reflexivity. }
  split_and!.
  - unfold MeshtasticClient__init__. py_unfold. simpl.
    rewrite Htcp, Hsub. simpl. rewrite He. reflexivity.
  - exact Hmain.
  - rewrite Hmain. reflexivity.
Qed.

Lemma X10_failed_subscription_leaks_the_interface_witness :
  let w :=
    {| TCPInterface := fun _ _ => Returns alice_directory;
       pub_subscribe := fun _ => Raises refused;
       interface_close := Returns tt;
       Driver := fun _ => Returns tt;
       driver_close := Returns tt;
       int_of_str := fun _ => None;
       int_error := cpython_int_error;
       time_sleep := fun _ => Returns tt;
       config_path := pystr_of "config.json";
       load_config := Returns sample_config;
       basicConfig := fun _ => Returns tt |} in
  closes (main w 5 no_locals).2 = [].
Proof.
  intros w.
  exact (proj2 (proj2 (X10_failed_subscription_leaks_the_interface w
                         sample_config 5 alice_directory refused
                         eq_refl eq_refl eq_refl eq_refl eq_refl))).
Defined.

(** X11.  Before its [try], [main] connects to nothing.  A configuration that
    cannot be loaded is printed and [main] returns normally; an interrupt or
    exit raised while loading, and whatever the logging setup raises, leave
    [main] at once.  In each case nothing was logged, connected, slept on or
    closed. *)
Theorem X11_main_prologue_failures (w : World) (fuel : nat) :
  (forall e,
     load_config w = Raises e ->
     main w fuel no_locals
     = if is_Exception e
       then (Ok tt, no_locals, [Print (config_error_message w e)])
       else (Raise e, no_locals, []))
  /\ (forall config e,
        load_config w = Returns config ->
        basicConfig w (log_level config) = Raises e ->
        main w fuel no_locals = (Raise e, no_locals, [])).
Proof.
  split.
  - intros e Hload. main_unfold. rewrite Hload. simpl.
    destruct (is_Exception e); reflexivity.
  - intros config e Hload Hb. main_unfold. rewrite Hload. simpl.
    rewrite Hb. reflexivity.
Qed.

Lemma X11_main_prologue_failures_witness :
  let w :=
    {| TCPInterface := fun _ _ => Returns alice_directory;
       pub_subscribe := fun _ => Returns tt;
       interface_close := Returns tt;
       Driver := fun _ => Returns tt;
       driver_close := Returns tt;
       int_of_str := fun _ => None;
       int_error := cpython_int_error;
       time_sleep := fun _ => Returns tt;
       config_path := pystr_of "config.json";
       load_config := Raises (Exn ValueError (pystr_of "Expecting value"));
       basicConfig := fun _ => Returns tt |} in
  main w 5 no_locals
  = (Ok tt, no_locals,
     [Print (config_error_message w
               (Exn ValueError (pystr_of "Expecting value")))]).
Proof.
  intros w.
  exact (proj1 (X11_main_prologue_failures w 5)
           (Exn ValueError (pystr_of "Expecting value")) eq_refl).
Defined.

(** ** The chat client's configuration *)

Lemma rev_is_reverse {A} (l : list A) : rev l = reverse l.
Proof. rewrite rev_alt. reflexivity. Qed.

Lemma drop_leading_spec ch l :
  exists k,
    l = replicate k ch ++ drop_leading ch l
    /\ head (drop_leading ch l) <> Some ch.
Proof.
  induction l as [|c r IH]; simpl.
  - exists 0%nat. split; [reflexivity|discriminate].
  - destruct (c =? ch) eqn:Hc.
    + apply N.eqb_eq in Hc. subst c. destruct IH as (k & Hr & Hh).
      exists (Datatypes.S k). split; [simpl; f_equal; exact Hr|exact Hh].
    + apply N.eqb_neq in Hc. exists 0%nat. split; [reflexivity|].
      simpl. congruence.
Qed.

Lemma rstrip_spec ch s :
  exists k,
    s = rstrip ch s ++ replicate k ch /\ last (rstrip ch s) <> Some ch.
Proof.
  unfold rstrip. destruct (drop_leading_spec ch (rev s)) as (k & Hs & Hh).
  exists k. split.
  - rewrite <- (rev_involutive s) at 1. rewrite Hs at 1.
    rewrite rev_app_distr. f_equal.
    rewrite rev_is_reverse. apply reverse_replicate.
  - rewrite rev_is_reverse, last_reverse. exact Hh.
Qed.

Lemma mm_init_inv w config blank self t :
  MattermostClient__init__ w config blank = (Ok tt, self, t) ->
  exists port,
    py_int w (default (JInt 80) (cfg_port config)) = Returns port
    /\ self = set_driver
                (Some {| driver_options :=
                           mattermost_login_config (configured config port) |})
                (configured config port)
    /\ t = [DriverConnect (mm_host (configured config port)) port].
Proof.
  unfold MattermostClient__init__. py_unfold.
  destruct (py_int w (default (JInt 80) (cfg_port config))) as [port|e];
    [|discriminate].
  cbv beta iota. simpl mattermost_login_config.
  destruct (Driver w _) as [[]|e]; simpl.
  - intros [= <- <-]. exists port. split_and!; reflexivity.
  - destruct (is_Exception e); simpl; discriminate.
Qed.

(** X12.  A constructed chat client holds a base path without a trailing
    slash, the configured one (or /api/v4) with its trailing slashes and
    nothing else removed; the options its driver was made with are the
    attributes it stores; and making the driver is all the constructor did. *)
Theorem X12_chat_client_is_consistent (w : World) (config : MattermostConfig)
    (blank self : MattermostClient) (t : list Effect) :
  MattermostClient__init__ w config blank = (Ok tt, self, t) ->
  (exists k,
     default (pystr_of "/api/v4") (cfg_basepath config)
     = mm_basepath self ++ replicate k SLASH)
  /\ last (mm_basepath self) <> Some SLASH
  /\ mattermost_login_config self
     = {| lc_url := mm_host self; lc_token := mm_token self;
          lc_scheme := mm_scheme self; lc_port := mm_port self;
          lc_basepath := mm_basepath self |}
  /\ driver self = Some {| driver_options := mattermost_login_config self |}
  /\ t = [DriverConnect (mm_host self) (mm_port self)].
Proof.
  intros H. apply mm_init_inv in H as (port & _ & -> & ->).
  destruct (rstrip_spec SLASH
              (default (pystr_of "/api/v4") (cfg_basepath config)))
    as (k & Hk & Hlast).
  split_and!; try reflexivity.
  - exists k. exact Hk.
  - exact Hlast.
Qed.

Lemma X12_chat_client_is_consistent_witness :
  let config := mattermost_config sample_config in
  let self := chat_client sample_config 8065 in
  (exists k,
     default (pystr_of "/api/v4") (cfg_basepath config)
     = mm_basepath self ++ replicate k SLASH)
  /\ last (mm_basepath self) <> Some SLASH
  /\ mattermost_login_config self
     = {| lc_url := mm_host self; lc_token := mm_token self;
          lc_scheme := mm_scheme self; lc_port := mm_port self;
          lc_basepath := mm_basepath self |}
  /\ driver self = Some {| driver_options := mattermost_login_config self |}
  /\ [DriverConnect (pystr_of "chat.local") 8065]
     = [DriverConnect (mm_host self) (mm_port self)].
Proof.
  apply (X12_chat_client_is_consistent
           (sample_world (Returns alice_directory) (Returns tt) 2)
           (mattermost_config sample_config) blank_MattermostClient
           (chat_client sample_config 8065)
           [DriverConnect (pystr_of "chat.local") 8065]).
  reflexivity.
Defined.

(** X13.  A port that [int] refuses stops the chat client's constructor
    before its [try]: the exception of [int] is raised as it is (ValueError
    for a string that is not a number or a NaN, OverflowError for an infinite
    float, TypeError for null, an array or an object), the driver is not made
    and, unlike a driver failure, nothing is logged.  [main] then closes the
    mesh connection it holds and ends with an exception. *)
Theorem X13_bad_port_is_not_logged (w : World) (config : Config)
    (fuel : nat) (v : json_scalar) (bad : exn) (iface : Interface) :
  cfg_port (mattermost_config config) = Some v ->
  py_int w v = Raises bad ->
  exn_str bad = int_error w v
  /\ exn_cls bad
     = match v with
       | JFloat Infinite => OverflowError
       | JNull | JArray | JObject => TypeError
       | _ => ValueError
       end
  /\ MattermostClient__init__ w (mattermost_config config)
       blank_MattermostClient
     = (Raise bad, blank_MattermostClient, [])
  /\ (load_config w = Returns config ->
      basicConfig w (log_level config) = Returns tt ->
      TCPInterface w (meshtastic_host config) MESH_PORT = Returns iface ->
      pub_subscribe w RECEIVE_TOPIC = Returns tt ->
      main w fuel no_locals
      = (Raise (match interface_close w with
                | Returns _ => bad
                | Raises e' => e'
                end),
         {| meshtastic_client := Some (mesh_client config iface);
            mattermost_client := None |},
         Log INFO logging_active_message
         :: mesh_startup config ++ [InterfaceClose])).
Proof.
  intros Hport Hint.
  assert (Hinit :
    MattermostClient__init__ w (mattermost_config config)
      blank_MattermostClient
    = (Raise bad, blank_MattermostClient, [])).
  { unfold MattermostClient__init__. py_unfold.
    rewrite Hport. simpl. rewrite Hint. reflexivity. }
  assert (Hki : is_KeyboardInterrupt bad = false)
    by exact (py_int_raises w v bad Hint).
  split_and!.
  - unfold py_int in Hint.
    destruct v as [z|s|b|[z| |]| | |]; try discriminate;
      try (injection Hint as <-; reflexivity).
    destruct (int_of_str w s); [discriminate|].
    injection Hint as <-. reflexivity.
  - unfold py_int in Hint.
    destruct v as [z|s|b|[z| |]| | |]; try discriminate;
      try (injection Hint as <-; reflexivity).
    destruct (int_of_str w s); [discriminate|].
    injection Hint as <-. reflexivity.
  - exact Hinit.
  - intros Hload Hb Htcp Hsub.
    rewrite (main_started w config fuel) by assumption. unfold guarded.
    unfold try_finally, try_except.
    rewrite (main_try_chat w config fuel iface) by assumption.
    rewrite Hinit. cbv beta iota zeta. rewrite Hki. cbv iota.
    unfold main_finally, MeshtasticClient_close. py_unfold. simpl.
    destruct (interface_close w) as [[]|e']; reflexivity.
Qed.

Lemma X13_bad_port_is_not_logged_witness :
  let config :=
    {| cfg_log_level := None; cfg_meshtastic := None;
       cfg_mattermost :=
         Some {| cfg_host := None; cfg_token := None; cfg_scheme := None;
                 cfg_port := Some (JString (pystr_of "eighty"));
                 cfg_basepath := None; cfg_team := None; cfg_user := None |} |}
  in
  MattermostClient__init__
    (sample_world (Returns alice_directory) (Returns tt) 2)
    (mattermost_config config) blank_MattermostClient
  = (Raise (Exn ValueError
              (pystr_of "invalid literal for int() with base 10: 'eighty'")),
     blank_MattermostClient, []).
Proof.
  intros config.
  exact (proj1 (proj2 (proj2
           (X13_bad_port_is_not_logged
              (sample_world (Returns alice_directory) (Returns tt) 2)
              config 5 (JString (pystr_of "eighty"))
              (Exn ValueError
                 (pystr_of "invalid literal for int() with base 10: 'eighty'"))
              alice_directory eq_refl eq_refl)))).
Defined.

(** ** The identity lookup, for its callers *)

(** X14.  [_id_to_name] is a lookup in the directory, whatever the order in
    which the dictionary hands out its items: the short and the long name of
    the user record under the id; the pair of empty names when the id is not a
    key; KeyError, naming the key, when the entry under the id has no user
    record or its user record has no long name or, the long name being there,
    no short name.  Entries under other keys are not looked into, and nothing
    is logged or changed. *)
Theorem X14_id_to_name_is_a_lookup (id : pystr) (st : Store) :
  _id_to_name id st
  = match nodes (s_interface st) !! id with
    | None => (Ok ([], []), st, [])
    | Some node_info =>
      match user node_info with
      | None => (Raise (missing "user"), st, [])
      | Some u =>
        match longName u, shortName u with
        | None, _ => (Raise (missing "longName"), st, [])
        | Some _, None => (Raise (missing "shortName"), st, [])
        | Some long_name, Some short_name =>
          (Ok (short_name, long_name), st, [])
        end
      end
    end.
Proof.
  rewrite id_to_name_lookup.
  destruct (nodes (s_interface st) !! id) as [[[[i [l|] [sh|]]|]]|];
    reflexivity.
Qed.

(** ** The text of a payload *)

Ltac Zify.zify_post_hook ::= Z.to_euclidean_division_equations.

Ltac bits :=
  unfold cont_bits;
  change 0x1F with (N.ones 5); change 0x0F with (N.ones 4);
  change 0x07 with (N.ones 3); change 0x3F with (N.ones 6);
  rewrite ?N.land_ones, ?N.shiftl_mul_pow2;
  change (2^3) with 8; change (2^4) with 16; change (2^5) with 32;
  change (2^6) with 64; change (2^12) with 4096; change (2^18) with 262144.

Ltac tests :=
  unfold in_range, is_cont in *;
  repeat match goal with
  | H : _ && _ = true |- _ => apply Bool.andb_true_iff in H as [? ?]
  | H : (_ <=? _) = true |- _ => apply N.leb_le in H
  | H : (_ <? _) = true |- _ => apply N.ltb_lt in H
  | H : (_ <? _) = false |- _ => apply N.ltb_ge in H
  | H : (_ =? _) = true |- _ => apply N.eqb_eq in H
  | H : (_ =? _) = false |- _ => apply N.eqb_neq in H
  end.

Lemma utf8_decode_N_valid (n : nat) (bs : list N) (s : pystr) :
  (length bs <= n)%nat ->
  utf8_decode_N bs = Some s ->
  Forall scalar s /\ (length s <= length bs)%nat /\ Forall utf8_byte bs.
Proof.
  revert bs s. induction n as [|n IH]; intros bs s Hlen H.
  - destruct bs; [|simpl in Hlen; lia]. injection H as <-.
    split_and!; [constructor|reflexivity|constructor].
  - destruct bs as [|b0 r0]; simpl in H.
    { injection H as <-. split_and!; [constructor|reflexivity|constructor]. }
    simpl in Hlen.
    destruct (b0 <? 0x80) eqn:H1.
    { destruct (utf8_decode_N r0) as [s0|] eqn:Hr; [|discriminate].
      injection H as <-. apply IH in Hr as (Hs & Hl & Hb); [|lia].
      split_and!; [|simpl; lia|].
      - constructor; [|exact Hs]. tests. unfold scalar. lia.
      - constructor; [|exact Hb]. tests. unfold utf8_byte. lia. }
    destruct (in_range 0xC2 0xDF b0) eqn:H2.
    { destruct r0 as [|b1 r1]; [discriminate|].
      destruct (is_cont b1) eqn:Hc1; [|discriminate].
      destruct (utf8_decode_N r1) as [s0|] eqn:Hr; [|discriminate].
      injection H as <-. simpl in Hlen.
      apply IH in Hr as (Hs & Hl & Hb); [|lia].
      split_and!; [|simpl; lia|].
      - constructor; [|exact Hs]. tests. unfold scalar. bits. lia.
      - repeat (constructor; [tests; unfold utf8_byte; lia|]). exact Hb. }
    destruct (in_range 0xE0 0xEF b0) eqn:H3.
    { destruct r0 as [|b1 [|b2 r2]]; try discriminate.
      destruct (in_range _ _ b1 && is_cont b2) eqn:Hc; [|discriminate].
      destruct (utf8_decode_N r2) as [s0|] eqn:Hr; [|discriminate].
      injection H as <-. simpl in Hlen.
      apply IH in Hr as (Hs & Hl & Hb); [|lia].
      split_and!; [|simpl; lia|].
      - constructor; [|exact Hs].
        destruct (b0 =? 0xE0) eqn:He0; destruct (b0 =? 0xED) eqn:Hed;
          tests; unfold scalar; bits; lia.
      - destruct (b0 =? 0xE0) eqn:He0; destruct (b0 =? 0xED) eqn:Hed;
          repeat (constructor; [tests; unfold utf8_byte; lia|]); exact Hb. }
    destruct (in_range 0xF0 0xF4 b0) eqn:H4; [|discriminate].
    destruct r0 as [|b1 [|b2 [|b3 r3]]]; try discriminate.
    destruct (in_range _ _ b1 && is_cont b2 && is_cont b3) eqn:Hc;
      [|discriminate].
    destruct (utf8_decode_N r3) as [s0|] eqn:Hr; [|discriminate].
    injection H as <-. simpl in Hlen.
    apply IH in Hr as (Hs & Hl & Hb); [|lia].
    split_and!; [|simpl; lia|].
    + constructor; [|exact Hs].
      destruct (b0 =? 0xF0) eqn:Hf0; destruct (b0 =? 0xF4) eqn:Hf4;
        tests; unfold scalar; bits; lia.
    + destruct (b0 =? 0xF0) eqn:Hf0; destruct (b0 =? 0xF4) eqn:Hf4;
        repeat (constructor; [tests; unfold utf8_byte; lia|]); exact Hb.
Qed.

Lemma utf8_decode_N_ascii (bs : list N) :
  Forall (fun b => b < 0x80) bs -> utf8_decode_N bs = Some bs.
Proof.
  induction 1 as [|b r Hb _ IH]; simpl; [reflexivity|].
  apply N.ltb_lt in Hb. rewrite Hb, IH. reflexivity.
Qed.

(** X15.  A text decoded from a packet is made of Unicode scalar values and
    is no longer than the payload; and no text is decoded from a payload that
    holds a byte UTF-8 never uses (C0, C1, F5 and above). *)
Theorem X15_decoded_text_is_well_formed (packet : Packet) (text : pystr) :
  decode packet = Some text ->
  Forall scalar text
  /\ exists d bs,
       decoded packet = Some d /\ payload d = Some bs
       /\ (length text <= length bs)%nat
       /\ Forall (fun b => utf8_byte (Byte.to_N b)) bs.
Proof.
  unfold decode. destruct (is_text_packet packet); [|discriminate].
  destruct (decoded packet) as [d|] eqn:Hd; [|discriminate]. simpl.
  destruct (payload d) as [bs|] eqn:Hp; [|discriminate]. simpl.
  unfold utf8_decode. intros H.
  apply (utf8_decode_N_valid _ _ _ (le_n _)) in H as (Hs & Hl & Hb).
  split; [exact Hs|]. exists d, bs. split_and!.
  - reflexivity.
  - exact Hp.
  - rewrite length_map in Hl. exact Hl.
  - exact (proj1 (List.Forall_map Byte.to_N utf8_byte bs) Hb).
Qed.

Lemma X15_decoded_text_is_well_formed_witness :
  Forall scalar (pystr_of "Hello")
  /\ exists d bs,
       decoded hello_packet = Some d /\ payload d = Some bs
       /\ (length (pystr_of "Hello") <= length bs)%nat
       /\ Forall (fun b => utf8_byte (Byte.to_N b)) bs.
Proof.
  apply (X15_decoded_text_is_well_formed hello_packet (pystr_of "Hello")).
  reflexivity.
Defined.

(** X16.  An ASCII payload is decoded byte for byte: the text of a
    text-message packet whose payload bytes are all below 0x80 is those
    bytes, as code points. *)
Theorem X16_ascii_payload_is_its_text (packet : Packet) (d : Decoded)
    (bs : pybytes) :
  is_text_packet packet = true ->
  decoded packet = Some d ->
  payload d = Some bs ->
  Forall (fun b => Byte.to_N b < 0x80) bs ->
  decode packet = Some (map Byte.to_N bs).
Proof.
  intros Ht Hd Hp Hascii. unfold decode. rewrite Ht, Hd. simpl.
  rewrite Hp. simpl. unfold utf8_decode.
  apply utf8_decode_N_ascii.
  exact (proj2 (List.Forall_map Byte.to_N (fun b => b < 0x80) bs) Hascii).
Qed.

Lemma X16_ascii_payload_is_its_text_witness :
  decode hello_packet = Some (map Byte.to_N (bytes_of "Hello")).
Proof.
  apply (X16_ascii_payload_is_its_text hello_packet
           {| portnum := Some TEXT_MESSAGE_APP;
              payload := Some (bytes_of "Hello") |}
           (bytes_of "Hello")); try reflexivity.
  repeat constructor.
Defined.

(** ** The client [main] builds *)

(** X17.  With the callback [main] installs, a text message from a sender the
    directory knows by a long name with a token and by a short name is
    handled without an exception: the handler logs the message, calls the
    callback, and the callback logs the callsign and the text. *)
Theorem X17_main_callback_never_fails (str_upper : pystr -> pystr)
    (st : Store) (d : Decoded) (bs : pybytes) (text id : pystr)
    (info : NodeInfo) (u : User) (long_name short_name tok : pystr)
    (rest : list pystr) :
  callback (s_self st) = mestastic_callback ->
  decoded (s_packet st) = Some d ->
  portnum d = Some TEXT_MESSAGE_APP ->
  payload d = Some bs ->
  utf8_decode bs = Some text ->
  fromId (s_packet st) = Some id ->
  nodes (s_interface st) !! id = Some info ->
  user info = Some u ->
  longName u = Some long_name ->
  shortName u = Some short_name ->
  split long_name = tok :: rest ->
  _on_receive str_upper st
  = (Ok tt, st,
     [Log DEBUG (received_message text (str_upper tok));
      Callback (str_upper tok) text;
      Log DEBUG (pystr_of "Callback received: " ++ str_upper tok
                 ++ pystr_of ": " ++ text)]).
Proof.
  intros Hcb Hd Hpn Hp Hu Hf Hn Huser Hln Hsn Hs.
  rewrite (on_receive_event str_upper st (str_upper tok) text).
  - unfold dispatched. rewrite Hcb. reflexivity.
  - apply relay_event_Some.
    exists d, bs, id, info, u, long_name, short_name, tok, rest.
    split_and!; auto.
Qed.

Lemma X17_main_callback_never_fails_witness :
  _on_receive ascii_upper
    (sample_store mestastic_callback hello_packet alice_directory)
  = (Ok tt, sample_store mestastic_callback hello_packet alice_directory,
     [Log DEBUG (received_message (pystr_of "Hello") (pystr_of "ALICE"));
      Callback (pystr_of "ALICE") (pystr_of "Hello");
      Log DEBUG (pystr_of "Callback received: " ++ pystr_of "ALICE"
                 ++ pystr_of ": " ++ pystr_of "Hello")]).
Proof.
  apply (X17_main_callback_never_fails ascii_upper
           (sample_store mestastic_callback hello_packet alice_directory)
           {| portnum := Some TEXT_MESSAGE_APP;
              payload := Some (bytes_of "Hello") |}
           (bytes_of "Hello") (pystr_of "Hello") (pystr_of "!abc123")
           alice_node (named "!abc123" "Alice Example" "AE")
           (pystr_of "Alice Example") (pystr_of "AE")
           (pystr_of "Alice") [pystr_of "Example"]);
    vm_compute; reflexivity.
Defined.
